(** * PaperHub: the embedding-based recommender

    A shallow embedding of [app/recommender.py], of the query it sends to
    PostgreSQL/pgvector, and of [crud.get_user_read_paper_ids].

    Conventions of the model.
    - Floating-point numbers are idealised as exact rationals ([Q]); numeric
      statements are up to [Qeq].
    - A table is the list of its rows in the order an unordered scan yields
      them.
    - Python exceptions and database errors are the [Raises] case of
      [outcome]. *)

From Stdlib Require Import String Ascii DecimalString.
From Stdlib Require Import List ZArith QArith Qabs Bool Lia Lqa.
From Stdlib Require Import Sorted Permutation.
Import ListNotations.

Local Open Scope Z_scope.

(** ** Outcomes of fallible code *)

Inductive exn : Type :=
| LimitMustNotBeNegative
    (* PostgreSQL, SQLSTATE 2201W: "LIMIT must not be negative" *)
| DifferentVectorDimensions (stored query : nat)
    (* pgvector: "different vector dimensions %d and %d" *)
| ValueError.
    (* numpy: inhomogeneous shape / operands could not be broadcast *)

Inductive outcome (A : Type) : Type :=
| Returns (a : A)
| Raises (e : exn).

Arguments Returns {A} a.
Arguments Raises {A} e.

Definition bind {A B} (m : outcome A) (k : A -> outcome B) : outcome B :=
  match m with
  | Returns a => k a
  | Raises e => Raises e
  end.

Notation "x <- m ;; k" := (bind m (fun x => k))
  (at level 61, m at next level, right associativity).

Fixpoint traverse {A B} (f : A -> outcome B) (l : list A) : outcome (list B) :=
  match l with
  | [] => Returns []
  | a :: l' => b <- f a ;; bs <- traverse f l' ;; Returns (b :: bs)
  end.

(** ** app/models.py *)

Definition vector := list Q.

Module Paper.
Record t : Type := mk {
  id : Z;
  title : string;
  authors : list string;
  abstract : option string;
  pdf_url : option string;
  arxiv_id : option string;
  category : option string;
  published_date : option Z;
  embedding : option vector;
  created_at : Z;
  updated_at : Z
}.
End Paper.

Module ReadingHistory.
Record t : Type := mk {
  id : Z;
  paper_id : Z;
  user_id : string;
  read_at : Z;
  rating : option Z;
  notes : option string
}.
End ReadingHistory.

(** The database behind a [Session]: the two tables the recommender reads. *)
Record Session : Type := mkSession {
  papers : list Paper.t;
  reading_histories : list ReadingHistory.t
}.

(** ** Python and SQL primitives *)

Definition mem (x : Z) (l : list Z) : bool := existsb (Z.eqb x) l.

(** [l[:stop]] *)
Definition py_slice_to {A} (l : list A) (stop : Z) : list A :=
  if 0 <=? stop then firstn (Z.to_nat stop) l
  else firstn (Z.to_nat (Z.of_nat (length l) + stop)) l.

(** [sep.join(parts)] *)
Fixpoint join (sep : string) (parts : list string) : string :=
  match parts with
  | [] => EmptyString
  | [s] => s
  | s :: rest => (s ++ sep ++ join sep rest)%string
  end.

(** [ORDER BY key] ascending, ties in scan order. *)
Section OrderBy.
Context {A : Type} (key : A -> Q).

Fixpoint insert_by (x : A) (l : list A) : list A :=
  match l with
  | [] => [x]
  | y :: l' => if Qle_bool (key x) (key y) then x :: l
               else y :: insert_by x l'
  end.

Definition order_by (l : list A) : list A :=
  fold_right insert_by [] l.
End OrderBy.

(** ** Formatting a float with [f'{x:.10f}']

    The value is rounded half-to-even to 10 decimals; the sign of a negative
    value is kept even when the digits are all zero. *)

Definition round_half_even (x : Q) : Z :=
  let n := Qnum x in
  let d := Zpos (Qden x) in
  let fl := n / d in
  let r2 := 2 * (n mod d) in
  if r2 <? d then fl
  else if d <? r2 then fl + 1
  else if Z.even fl then fl else fl + 1.

(** [|x| * 10^10] rounded to an integer. *)
Definition scaled10 (x : Q) : Z :=
  round_half_even (Qabs x * inject_Z (10 ^ 10))%Q.





(** The number the database reads back from [format_10f x]. *)
Definition literal_value (x : Q) : Q :=
  let v := (inject_Z (scaled10 x) / inject_Z (10 ^ 10))%Q in
  if Qlt_le_dec x 0 then (- v)%Q else v.

(** ** numpy *)

(** [np.mean(np.array(r :: rs), axis=0)]: the rows are summed and the sum is
    divided by the number of rows; rows of unequal length have no array. *)
Definition zip_add (a b : vector) : vector :=
  map (fun '(x, y) => (x + y)%Q) (combine a b).

Definition np_sum_rows (r : vector) (rs : list vector) : vector :=
  fold_left zip_add rs r.

Definition np_mean_axis0 (r : vector) (rs : list vector) : outcome vector :=
  if forallb (fun v => Nat.eqb (length v) (length r)) rs
  then Returns (map (fun s => (s / inject_Z (Z.of_nat (length (r :: rs))))%Q)
                    (np_sum_rows r rs))
  else Raises ValueError.

(** [a + b] on one-dimensional arrays, with broadcasting of a length-1
    operand. *)
Definition np_add (a b : vector) : outcome vector :=
  if Nat.eqb (length a) (length b)
  then Returns (zip_add a b)
  else match a, b with
       | [x], _ => Returns (map (fun y => (x + y)%Q) b)
       | _, [y] => Returns (map (fun x => (x + y)%Q) a)
       | _, _ => Raises ValueError
       end.

(** [c * a] *)
Definition np_scale (c : Q) (a : vector) : vector := map (Qmult c) a.

(** ** app/crud.py *)

(** [SELECT DISTINCT paper_id FROM reading_histories WHERE user_id = :user_id].
    The statement has no [ORDER BY]: the engine is free in the order of the
    distinct values, and the model fixes one. *)
Definition get_user_read_paper_ids (db : Session) (user_id : string) : list Z :=
  let results :=
    filter (fun h => String.eqb (ReadingHistory.user_id h) user_id)
           (reading_histories db) in
  nodup Z.eq_dec (map ReadingHistory.paper_id results).

(** ** app/recommender.py *)

(** [db.query(Paper).filter(Paper.id == paper_id).first()] *)
Definition query_paper_first (db : Session) (paper_id : Z) : option Paper.t :=
  find (fun p => Paper.id p =? paper_id) (papers db).

(** [db.query(Paper).filter(Paper.id.in_(ids), Paper.embedding.isnot(None)).all()],
    each row with its embedding. *)
Definition query_papers_in_with_embedding (db : Session) (ids : list Z)
  : list (Paper.t * vector) :=
  flat_map (fun p =>
              match Paper.embedding p with
              | Some e => if mem (Paper.id p) ids then [(p, e)] else []
              | None => []
              end) (papers db).

(** [if exclude_ids:] builds the clause only for a non-empty list. *)
Definition exclude_clause (exclude_ids : option (list Z)) : option (list Z) :=
  match exclude_ids with
  | Some (i :: ids) => Some (i :: ids)
  | _ => None
  end.

(** [WHERE embedding IS NOT NULL {exclude_clause}]: the rows that pass, each
    with its embedding. *)
Definition where_rows (clause : option (list Z)) (table : list Paper.t)
  : list (Paper.t * vector) :=
  flat_map (fun p =>
              match Paper.embedding p with
              | None => []
              | Some e =>
                  match clause with
                  | Some ids => if mem (Paper.id p) ids then [] else [(p, e)]
                  | None => [(p, e)]
                  end
              end) table.

(** [Paper(id=row.id, ..., updated_at=row.updated_at)]: the embedding is not
    selected and stays unset. *)
Definition paper_of_row (row : Paper.t) : Paper.t :=
  Paper.mk (Paper.id row) (Paper.title row) (Paper.authors row)
           (Paper.abstract row) (Paper.pdf_url row) (Paper.arxiv_id row)
           (Paper.category row) (Paper.published_date row) None
           (Paper.created_at row) (Paper.updated_at row).


(** ** Sample data

    A stand-in for the distance operator (the cosine distance of unit
    vectors) and small tables, used to run the definitions. *)

Definition dot (a b : vector) : Q :=
  fold_right Qplus 0%Q (map (fun '(x, y) => (x * y)%Q) (combine a b)).

Definition unit_cosine_distance (a b : vector) : Q := (1 - dot a b)%Q.

Definition sample_encode (text : string) : vector :=
  [inject_Z (Z.of_nat (String.length text)); 1%Q].

Definition sample_paper (i : Z) (a : option string) (e : option vector) : Paper.t :=
  Paper.mk i "t" [] a None None None None e 0 0.

Definition sample_read (i p : Z) (u : string) (t : Z) : ReadingHistory.t :=
  ReadingHistory.mk i p u t None None.

Definition long_abstract : string :=
  string_of_list_ascii (repeat "a"%char 600).

(** Five papers, the third without a vector; user [u] read paper 1 twice and
    papers 3 and 4 once. *)
Definition sample_db : Session :=
  mkSession
    [ sample_paper 1 None (Some [1; 0]%Q);
      sample_paper 2 None (Some [3 # 5; 4 # 5]%Q);
      sample_paper 3 None None;
      sample_paper 4 None (Some [0; 1]%Q);
      sample_paper 5 None (Some [1; 0]%Q) ]
    [ sample_read 1 1 "u" 10;
      sample_read 2 3 "u" 11;
      sample_read 3 1 "u" 12;
      sample_read 4 4 "u" 13;
      sample_read 5 2 "v" 14 ].


(** A database within the schema: unit vectors of dimension 384. *)
Definition basis (i : nat) : vector :=
  repeat 0%Q i ++ [1%Q] ++ repeat 0%Q (383 - i).

Definition sample_encode_384 (text : string) : vector :=
  inject_Z (Z.of_nat (String.length text)) :: repeat 1%Q 383.

Definition schema_db : Session :=
  mkSession
    [ sample_paper 1 None (Some (basis 0));
      sample_paper 2 None (Some (basis 1));
      sample_paper 3 (Some long_abstract) None;
      sample_paper 4 None (Some (basis 0)) ]
    [ sample_read 1 1 "u" 10;
      sample_read 2 3 "u" 11;
      sample_read 3 1 "u" 12 ].

(** ** app/crud.py: single rows, writes and listings *)

(** [embedding = Column(VECTOR(384), nullable=True)] *)
Definition embedding_column_dimension : nat := 384.

Inductive db_error : Type :=
| ExpectedDimensions (expected got : nat)
    (* pgvector, on writing a typed column: "expected %d dimensions, not %d" *)
| ForeignKeyViolation
    (* reading_histories.paper_id references papers.id *)
| OffsetMustNotBeNegative
| NegativeLimit.

(** [db.query(Paper).options(...).filter(Paper.id == paper_id).first()] *)
Definition get_paper (db : Session) (paper_id : Z) : option Paper.t :=
  find (fun p => Paper.id p =? paper_id) (papers db).

(** The row after [db_paper.embedding = embedding]; [updated_at] has
    [onupdate=utcnow]. *)
Definition set_embedding (p : Paper.t) (embedding : vector) (now : Z) : Paper.t :=
  Paper.mk (Paper.id p) (Paper.title p) (Paper.authors p) (Paper.abstract p)
           (Paper.pdf_url p) (Paper.arxiv_id p) (Paper.category p)
           (Paper.published_date p) (Some embedding)
           (Paper.created_at p) now.

Definition update_paper_embedding (db : Session) (paper_id : Z)
           (embedding : vector) (now : Z)
  : db_error + (Session * option Paper.t) :=
  match get_paper db paper_id with
  | None => inr (db, None)
  | Some _ =>
      if Nat.eqb (List.length embedding) embedding_column_dimension
      then
        let db' :=
          mkSession (map (fun p => if Paper.id p =? paper_id
                                   then set_embedding p embedding now else p)
                         (papers db))
                    (reading_histories db) in
        inr (db', get_paper db' paper_id)
      else inl (ExpectedDimensions embedding_column_dimension
                                   (List.length embedding))
  end.

(** [db.delete(db_paper)]: the reading histories of the paper go with it
    ([cascade="all, delete-orphan"], [ondelete="CASCADE"]). *)
Definition delete_paper (db : Session) (paper_id : Z) : Session * bool :=
  match get_paper db paper_id with
  | None => (db, false)
  | Some _ =>
      (mkSession
         (filter (fun p => negb (Paper.id p =? paper_id)) (papers db))
         (filter (fun h => negb (ReadingHistory.paper_id h =? paper_id))
                 (reading_histories db)),
       true)
  end.

Module ReadingHistoryCreate.
Record t : Type := mk {
  paper_id : Z;
  user_id : string;
  rating : option Z;
  notes : option string
}.
End ReadingHistoryCreate.

(** The new row gets its id from the table's sequence and [read_at] from
    [default=utcnow]; both are given here as [new_id] and [now]. *)
Definition create_reading_history (db : Session) (history : ReadingHistoryCreate.t)
           (new_id now : Z) : db_error + (Session * ReadingHistory.t) :=
  let db_history :=
    ReadingHistory.mk new_id (ReadingHistoryCreate.paper_id history)
                      (ReadingHistoryCreate.user_id history) now
                      (ReadingHistoryCreate.rating history)
                      (ReadingHistoryCreate.notes history) in
  if existsb (fun p => Paper.id p =? ReadingHistoryCreate.paper_id history)
             (papers db)
  then inr (mkSession (papers db) (reading_histories db ++ [db_history]),
            db_history)
  else inl ForeignKeyViolation.

Definition get_reading_history (db : Session) (history_id : Z)
  : option ReadingHistory.t :=
  find (fun h => ReadingHistory.id h =? history_id) (reading_histories db).

Definition delete_reading_history (db : Session) (history_id : Z)
  : Session * bool :=
  match get_reading_history db history_id with
  | None => (db, false)
  | Some _ =>
      (mkSession (papers db)
                 (filter (fun h => negb (ReadingHistory.id h =? history_id))
                         (reading_histories db)),
       true)
  end.

(** [... .filter(user_id == :user_id).order_by(desc(read_at)).offset(skip)
    .limit(limit).all()] *)
Definition get_reading_histories (db : Session) (user_id : string)
           (skip limit : Z) : db_error + list ReadingHistory.t :=
  if skip <? 0 then inl OffsetMustNotBeNegative
  else if limit <? 0 then inl NegativeLimit
  else
    inr (firstn (Z.to_nat limit)
           (skipn (Z.to_nat skip)
              (order_by (fun h => inject_Z (- ReadingHistory.read_at h))
                 (filter (fun h => String.eqb (ReadingHistory.user_id h) user_id)
                         (reading_histories db))))).

(** [sorted(strings)] *)
Fixpoint insert_string (x : string) (l : list string) : list string :=
  match l with
  | [] => [x]
  | y :: l' => if String.leb x y then x :: l else y :: insert_string x l'
  end.

Definition sorted_strings (l : list string) : list string :=
  fold_right insert_string [] l.

(** [SELECT DISTINCT category FROM papers WHERE category IS NOT NULL], then
    [sorted([r[0] for r in results if r[0]])] *)
Definition get_categories (db : Session) : list string :=
  let results :=
    nodup string_dec
          (flat_map (fun p => match Paper.category p with
                              | Some c => [c]
                              | None => []
                              end) (papers db)) in
  sorted_strings (filter (fun c => negb (String.eqb c "")) results).

(** ** app/utils.py *)

(** [s[:stop]] on a string *)
Definition str_slice_to (s : string) (stop : Z) : string :=
  if 0 <=? stop then substring 0 (Z.to_nat stop) s
  else substring 0 (Z.to_nat (Z.of_nat (String.length s) + stop)) s.

Definition truncate_text (text : string) (max_length : Z) (suffix : string)
  : string :=
  if String.eqb text "" || (Z.of_nat (String.length text) <=? max_length)
  then text
  else (str_slice_to text (max_length - Z.of_nat (String.length suffix))
        ++ suffix)%string.

Definition format_authors (authors : list string) (max_display : Z) : string :=
  match authors with
  | [] => "Unknown"%string
  | _ :: _ =>
      if Z.of_nat (List.length authors) <=? max_display
      then join ", " authors
      else
        let displayed := join ", " (py_slice_to authors max_display) in
        (displayed ++ ", et al.")%string
  end.

(** ** app/main.py *)

(** [import_paper_from_arxiv]: the text whose embedding is stored with an
    imported paper, [f"{title} {abstract[:500]}"]. *)
Definition import_paper_text (title abstract : string) : string :=
  (title ++ " " ++ substring 0 500 abstract)%string.

(** ** The recommender object and its lazily loaded model *)

Module PaperRecommender.

Record t : Type := mk {
  model_name : string;
  model : option (string -> vector);
  dimension : nat
}.


Section Model.

(** [SentenceTransformer(model_name)], as the function [encode] of the
    loaded model. *)
Variable SentenceTransformer : string -> string -> vector.

(** The second component is what has been printed so far. *)
Definition load_model (self : t) (stdout : list string) : t * list string :=
  match model self with
  | None =>
      (mk (model_name self) (Some (SentenceTransformer (model_name self)))
          (dimension self),
       stdout ++ [("正在加载模型: " ++ model_name self ++ "...")%string;
                  "模型加载完成！"%string])
  | Some _ => (self, stdout)
  end.

Definition generate_embedding (self : t) (stdout : list string) (text : string)
  : t * list string * option vector :=
  let '(self', stdout') := load_model self stdout in
  (self', stdout', option_map (fun encode => encode text) (model self')).

End Model.

End PaperRecommender.

(** ** Invariants of the schema *)

(** Every stored vector has the dimension of its column. *)
Definition schema_ok (db : Session) : Prop :=
  forall p e, In p (papers db) -> Paper.embedding p = Some e ->
              List.length e = embedding_column_dimension.

(** Every reading history refers to a paper of the table. *)
Definition references_ok (db : Session) : Prop :=
  forall h, In h (reading_histories db) ->
            exists p, In p (papers db) /\ Paper.id p = ReadingHistory.paper_id h.

Section Recommender.

(** [SentenceTransformer.encode] of the pretrained model. *)
Variable encode : string -> vector.

(** The number pgvector's [<=>] yields on two vectors of one dimension. *)
Variable cosine_distance : vector -> vector -> Q.

(** [self.dimension] *)
Definition dimension : nat := 384.

Definition generate_embedding (text : string) : vector := encode text.

Definition generate_paper_embedding (paper : Paper.t) : vector :=
  let text_parts :=
    [Paper.title paper] ++
    match Paper.abstract paper with
    | Some EmptyString | None => []
    | Some a => [substring 0 500 a]
    end in
  let combined_text := join " " text_parts in
  generate_embedding combined_text.

(** [embedding <=> '...'::vector]: pgvector refuses operands of different
    dimensions. *)
Definition pg_cosine_distance (stored query : vector) : outcome Q :=
  if Nat.eqb (List.length stored) (List.length query)
  then Returns (cosine_distance stored query)
  else Raises (DifferentVectorDimensions (List.length stored) (List.length query)).

(** One selected row: the paper's columns and its distance to the query. *)
Definition select_row (query : vector) (r : Paper.t * vector)
  : outcome (Paper.t * Q) :=
  d <- pg_cosine_distance (snd r) query ;; Returns (fst r, d).

(** The statement of [find_similar_papers], run by the database: rows paired
    with their distance, nearest first, at most [limit] of them.  A [LIMIT]
    of zero ends the statement before any row is read. *)
Definition execute_similarity_query (db : Session) (query : vector)
           (clause : option (list Z)) (limit : Z) : outcome (list (Paper.t * Q)) :=
  if limit <? 0 then Raises LimitMustNotBeNegative
  else if limit =? 0 then Returns []
  else
    rows <- traverse (select_row query) (where_rows clause (papers db)) ;;
    Returns (firstn (Z.to_nat limit) (order_by snd rows)).

Definition find_similar_papers (db : Session) (query_embedding : vector)
           (limit : Z) (exclude_ids : option (list Z))
  : outcome (list (Paper.t * Q)) :=
  let clause := exclude_clause exclude_ids in
  (* the database reads [vector_str query_embedding] back as these numbers *)
  let literal := map literal_value query_embedding in
  result <- execute_similarity_query db literal clause limit ;;
  Returns (map (fun r => (paper_of_row (fst r), (1 - snd r)%Q)) result).

Definition recommend_by_paper (db : Session) (paper_id : Z) (limit : Z)
           (exclude_current : bool) : outcome (list (Paper.t * Q)) :=
  match query_paper_first db paper_id with
  | None => Returns []
  | Some paper =>
      match Paper.embedding paper with
      | None => Returns []
      | Some embedding =>
          let exclude_ids := if exclude_current then [paper_id] else [] in
          find_similar_papers db embedding limit (Some exclude_ids)
      end
  end.

Definition recommend_by_reading_history (db : Session) (user_id : string)
           (limit : Z) (history_limit : Z) : outcome (list (Paper.t * Q)) :=
  let read_paper_ids := get_user_read_paper_ids db user_id in
  match read_paper_ids with
  | [] => Returns []
  | _ :: _ =>
      let recent_papers :=
        query_papers_in_with_embedding
          db (py_slice_to read_paper_ids history_limit) in
      match map snd recent_papers with
      | [] => Returns []
      | e :: embeddings =>
          avg_embedding <- np_mean_axis0 e embeddings ;;
          find_similar_papers db avg_embedding limit (Some read_paper_ids)
      end
  end.

Definition recommend_hybrid (db : Session) (paper_id : Z) (user_id : string)
           (limit : Z) : outcome (list (Paper.t * Q)) :=
  match query_paper_first db paper_id with
  | None => Returns []
  | Some current_paper =>
      match Paper.embedding current_paper with
      | None => Returns []
      | Some current_embedding =>
          let read_paper_ids := get_user_read_paper_ids db user_id in
          let recent_papers :=
            match read_paper_ids with
            | [] => []
            | _ :: _ => query_papers_in_with_embedding
                          db (py_slice_to read_paper_ids 5)
            end in
          hybrid_embedding <-
            match map snd recent_papers with
            | e :: history_embeddings =>
                avg_history_embedding <- np_mean_axis0 e history_embeddings ;;
                np_add (np_scale (7 # 10) current_embedding)
                       (np_scale (3 # 10) avg_history_embedding)
            | [] => Returns current_embedding
            end ;;
          let exclude_ids := paper_id :: read_paper_ids in
          find_similar_papers db hybrid_embedding limit (Some exclude_ids)
      end
  end.


(** ** Reference definitions, from the wording of the specification *)

Definition excluded_ids (exclude_ids : option (list Z)) : list Z :=
  match exclude_ids with
  | Some ids => ids
  | None => []
  end.

(** The candidates of a search: papers with a stored vector and outside the
    exclusion set. *)
Definition eligible (db : Session) (exclude_ids : option (list Z)) : list Paper.t :=
  filter (fun p => match Paper.embedding p with
                   | Some _ => negb (mem (Paper.id p) (excluded_ids exclude_ids))
                   | None => false
                   end) (papers db).

(** Component [i] of the centroid: the arithmetic mean, over the vectors
    present, of their components [i]. *)
Definition centroid_component (vs : list vector) (i : nat) : Q :=
  (fold_right Qplus 0 (map (fun v => nth i v 0) vs)
   / inject_Z (Z.of_nat (List.length vs)))%Q.

(** The read history as the specification words it: one paper id per read
    event of the user, most recently read first. *)
Definition read_events_most_recent_first (db : Session) (user_id : string)
  : list Z :=
  map ReadingHistory.paper_id
      (order_by (fun h => inject_Z (- ReadingHistory.read_at h))
                (filter (fun h => String.eqb (ReadingHistory.user_id h) user_id)
                        (reading_histories db))).

(** A paper with its abstract cut to the first 500 characters, and a database
    in which this was done to paper [paper_id]. *)
Definition truncate_abstract (p : Paper.t) : Paper.t :=
  Paper.mk (Paper.id p) (Paper.title p) (Paper.authors p)
           (option_map (substring 0 500) (Paper.abstract p))
           (Paper.pdf_url p) (Paper.arxiv_id p) (Paper.category p)
           (Paper.published_date p) (Paper.embedding p)
           (Paper.created_at p) (Paper.updated_at p).

Definition with_truncated_abstract (db : Session) (paper_id : Z) : Session :=
  mkSession (map (fun p => if Paper.id p =? paper_id then truncate_abstract p
                           else p) (papers db))
            (reading_histories db).







(** ** Properties *)

(** *** The outcome monad *)

Lemma bind_returns {A B} (m : outcome A) (k : A -> outcome B) (b : B) :
  bind m k = Returns b -> exists a, m = Returns a /\ k a = Returns b.
Proof.
  destruct m as [a|e]; simpl; intros E; [exists a; auto | discriminate].
Qed.

Lemma traverse_returns {A B} (f : A -> outcome B) (l : list A) (bs : list B) :
  traverse f l = Returns bs -> Forall2 (fun a b => f a = Returns b) l bs.
Proof.
  revert bs; induction l as [|a l IH]; simpl; intros bs E.
  - injection E as <-. constructor.
  - apply bind_returns in E as (b & Hb & E).
    apply bind_returns in E as (bs' & Hbs & E).
    injection E as <-. constructor; auto.
Qed.



(** *** Ordering and limiting *)

Lemma insert_by_perm {A} (key : A -> Q) (x : A) (l : list A) :
  Permutation (insert_by key x l) (x :: l).
Proof.
  induction l as [|y l IH]; simpl; [reflexivity|].
  destruct (Qle_bool (key x) (key y)); [reflexivity|].
  rewrite IH. apply perm_swap.
Qed.

Lemma order_by_perm {A} (key : A -> Q) (l : list A) :
  Permutation (order_by key l) l.
Proof.
  induction l as [|x l IH]; simpl; [reflexivity|].
  rewrite insert_by_perm. now constructor.
Qed.

Lemma insert_by_sorted {A} (key : A -> Q) (x : A) (l : list A) :
  StronglySorted (fun a b => (key a <= key b)%Q) l ->
  StronglySorted (fun a b => (key a <= key b)%Q) (insert_by key x l).
Proof.
  induction 1 as [|y l Hs IH Hy]; simpl.
  - repeat constructor.
  - destruct (Qle_bool (key x) (key y)) eqn:E.
    + apply Qle_bool_iff in E.
      constructor; [constructor; assumption|].
      constructor; [assumption|].
      eapply Forall_impl; [|exact Hy].
      intros b Hb; simpl in Hb. eapply Qle_trans; eassumption.
    + constructor; [assumption|].
      eapply Permutation_Forall; [symmetry; apply insert_by_perm|].
      constructor; [|assumption].
      destruct (Qlt_le_dec (key y) (key x)) as [Hlt|Hle].
      * now apply Qlt_le_weak.
      * apply Qle_bool_iff in Hle. congruence.
Qed.

Lemma order_by_sorted {A} (key : A -> Q) (l : list A) :
  StronglySorted (fun a b => (key a <= key b)%Q) (order_by key l).
Proof.
  induction l as [|x l IH]; simpl; [constructor|].
  now apply insert_by_sorted.
Qed.

Lemma firstn_In {A} (n : nat) (l : list A) (x : A) :
  In x (firstn n l) -> In x l.
Proof.
  revert l; induction n as [|n IH]; intros [|y l]; simpl; try tauto.
  intros [->|H]; auto.
Qed.

Lemma firstn_sorted {A} (R : A -> A -> Prop) (n : nat) (l : list A) :
  StronglySorted R l -> StronglySorted R (firstn n l).
Proof.
  intros Hs; revert n; induction Hs as [|x l Hs IH Hx]; intros [|n]; simpl;
    try constructor; auto.
  apply Forall_forall; intros y Hy.
  apply firstn_In in Hy. rewrite Forall_forall in Hx; auto.
Qed.


(** *** The rows of the statement *)

Lemma mem_true_iff (x : Z) (l : list Z) : mem x l = true <-> In x l.
Proof.
  unfold mem. rewrite existsb_exists. split.
  - intros (y & Hy & E). apply Z.eqb_eq in E. now subst.
  - intros H. exists x. split; [assumption | apply Z.eqb_refl].
Qed.

Lemma mem_exclude_clause (x : Z) (exclude_ids : option (list Z)) :
  match exclude_clause exclude_ids with
  | Some ids => mem x ids
  | None => false
  end = mem x (excluded_ids exclude_ids).
Proof.
  destruct exclude_ids as [[|i ids]|]; reflexivity.
Qed.

Lemma where_rows_In (exclude_ids : option (list Z)) (table : list Paper.t)
      (p : Paper.t) (e : vector) :
  In (p, e) (where_rows (exclude_clause exclude_ids) table) <->
  In p table /\ Paper.embedding p = Some e /\
  ~ In (Paper.id p) (excluded_ids exclude_ids).
Proof.
  unfold where_rows. rewrite in_flat_map. split.
  - intros (r & Hr & Hin).
    destruct (Paper.embedding r) as [v|] eqn:Ev; [|contradiction].
    pose proof (mem_exclude_clause (Paper.id r) exclude_ids) as Hm.
    assert (Hx : mem (Paper.id r) (excluded_ids exclude_ids) = false /\ (p, e) = (r, v)).
    { destruct (exclude_clause exclude_ids) as [ids|].
      - destruct (mem (Paper.id r) ids); [contradiction|].
        destruct Hin as [Hin|[]]. split; congruence.
      - destruct Hin as [Hin|[]]. split; congruence. }
    destruct Hx as (Hx & Heq). injection Heq as -> ->.
    repeat split; auto.
    intros Hi. apply mem_true_iff in Hi. congruence.
  - intros (Hin & Ev & Hx). exists p. split; [assumption|].
    rewrite Ev.
    pose proof (mem_exclude_clause (Paper.id p) exclude_ids) as Hm.
    assert (Hf : mem (Paper.id p) (excluded_ids exclude_ids) = false).
    { destruct (mem _ _) eqn:E; [|reflexivity].
      apply mem_true_iff in E. contradiction. }
    rewrite Hf in Hm.
    destruct (exclude_clause exclude_ids) as [ids|]; [rewrite Hm|]; now left.
Qed.

Lemma where_rows_length (db : Session) (exclude_ids : option (list Z)) :
  List.length (where_rows (exclude_clause exclude_ids) (papers db)) =
  List.length (eligible db exclude_ids).
Proof.
  unfold eligible, where_rows.
  induction (papers db) as [|p t IH]; simpl; [reflexivity|].
  rewrite length_app, IH.
  pose proof (mem_exclude_clause (Paper.id p) exclude_ids) as Hm.
  destruct (Paper.embedding p) as [v|]; [|reflexivity].
  destruct (exclude_clause exclude_ids) as [ids|].
  - rewrite <- Hm. destruct (mem (Paper.id p) ids); reflexivity.
  - rewrite <- Hm. reflexivity.
Qed.

Lemma Forall2_In_r {A B} (R : A -> B -> Prop) (l : list A) (l' : list B) (b : B) :
  Forall2 R l l' -> In b l' -> exists a, In a l /\ R a b.
Proof.
  induction 1 as [|a b' l l' Hab _ IH]; simpl; [contradiction|].
  intros [<-|Hin].
  - exists a; auto.
  - destruct (IH Hin) as (a' & Ha' & HR). exists a'; auto.
Qed.

Lemma select_row_returns (query : vector) (r : Paper.t * vector) (r' : Paper.t * Q) :
  select_row query r = Returns r' ->
  fst r' = fst r /\ List.length (snd r) = List.length query /\
  snd r' = cosine_distance (snd r) query.
Proof.
  unfold select_row, pg_cosine_distance.
  destruct (Nat.eqb _ _) eqn:E; simpl; [|discriminate].
  intros H; injection H as <-. apply Nat.eqb_eq in E. auto.
Qed.

(** What a returning statement returned: nothing for [LIMIT 0], otherwise the
    first [limit] of all candidate rows in order of distance. *)
Lemma execute_similarity_query_returns (db : Session) (query : vector)
      (clause : option (list Z)) (limit : Z) (rows : list (Paper.t * Q)) :
  execute_similarity_query db query clause limit = Returns rows ->
  (limit = 0 /\ rows = []) \/
  (0 < limit /\
   exists all,
     Forall2 (fun r r' => select_row query r = Returns r')
             (where_rows clause (papers db)) all /\
     rows = firstn (Z.to_nat limit) (order_by snd all)).
Proof.
  unfold execute_similarity_query.
  destruct (limit <? 0) eqn:Hneg; [discriminate|].
  destruct (limit =? 0) eqn:Hz.
  - intros H; injection H as <-. left. apply Z.eqb_eq in Hz. auto.
  - intros H. apply bind_returns in H as (all & Hall & H). injection H as <-.
    right. apply Z.ltb_ge in Hneg. apply Z.eqb_neq in Hz.
    split; [lia|]. exists all. split; [|reflexivity].
    now apply traverse_returns.
Qed.

(** Every returned pair stems from a candidate row of the table. *)
Lemma find_similar_papers_rows (db : Session) (query_embedding : vector)
      (limit : Z) (exclude_ids : option (list Z)) (res : list (Paper.t * Q))
      (p : Paper.t) (s : Q) :
  find_similar_papers db query_embedding limit exclude_ids = Returns res ->
  In (p, s) res ->
  exists row e,
    In row (papers db) /\ Paper.embedding row = Some e /\
    ~ In (Paper.id row) (excluded_ids exclude_ids) /\
    p = paper_of_row row /\
    s = (1 - cosine_distance e (map literal_value query_embedding))%Q.
Proof.
  unfold find_similar_papers. intros H Hin.
  apply bind_returns in H as (rows & Hrows & H). injection H as <-.
  apply in_map_iff in Hin as ([row d] & Heq & Hin). simpl in Heq.
  injection Heq as <- <-.
  apply execute_similarity_query_returns in Hrows
    as [(_ & ->)|(_ & all & Hall & ->)]; [contradiction|].
  apply firstn_In in Hin.
  apply (Permutation_in _ (order_by_perm snd all)) in Hin.
  destruct (Forall2_In_r _ _ _ _ Hall Hin) as ([r e] & Hr & Hsel).
  apply select_row_returns in Hsel as (Hfst & _ & Hd). simpl in *. subst.
  apply where_rows_In in Hr as (Hr & He & Hx).
  exists r, e. auto.
Qed.

Lemma find_similar_papers_length (db : Session) (query_embedding : vector)
      (limit : Z) (exclude_ids : option (list Z)) (res : list (Paper.t * Q)) :
  find_similar_papers db query_embedding limit exclude_ids = Returns res ->
  0 <= limit /\
  List.length res =
  Nat.min (Z.to_nat limit) (List.length (eligible db exclude_ids)).
Proof.
  unfold find_similar_papers. intros H.
  apply bind_returns in H as (rows & Hrows & H). injection H as <-.
  rewrite length_map.
  apply execute_similarity_query_returns in Hrows
    as [(-> & ->)|(Hpos & all & Hall & ->)].
  - split; [lia | reflexivity].
  - split; [lia|].
    rewrite length_firstn, (Permutation_length (order_by_perm snd all)).
    rewrite <- (Forall2_length Hall). now rewrite where_rows_length.
Qed.


(** C1: whatever the query vector, the limit and the exclusion list (absent,
    empty, or covering every candidate), a result of [find_similar_papers]
    contains no paper whose id is excluded; when every paper with a stored
    vector is excluded, the result is empty. *)
Theorem find_similar_papers_never_returns_excluded
        (db : Session) (query_embedding : vector) (limit : Z)
        (exclude_ids : option (list Z)) (res : list (Paper.t * Q)) :
  find_similar_papers db query_embedding limit exclude_ids = Returns res ->
  (forall p s, In (p, s) res ->
               ~ In (Paper.id p) (excluded_ids exclude_ids)) /\
  ((forall row, In row (papers db) -> Paper.embedding row <> None ->
                In (Paper.id row) (excluded_ids exclude_ids)) ->
   res = []).
Proof.
  intros H. split.
  - intros p s Hin.
    destruct (find_similar_papers_rows _ _ _ _ _ _ _ H Hin)
      as (row & e & _ & _ & Hx & -> & _).
    exact Hx.
  - intros Hall. destruct res as [|[p s] res']; [reflexivity|].
    destruct (find_similar_papers_rows _ _ _ _ _ p s H (or_introl eq_refl))
      as (row & e & Hrow & He & Hx & _).
    exfalso. apply Hx, Hall; [assumption | congruence].
Qed.


(** *** Read history *)

Lemma read_ids_In (db : Session) (user_id : string) (i : Z) :
  In i (get_user_read_paper_ids db user_id) <->
  exists h, In h (reading_histories db) /\
            ReadingHistory.user_id h = user_id /\ ReadingHistory.paper_id h = i.
Proof.
  unfold get_user_read_paper_ids. rewrite nodup_In, in_map_iff. split.
  - intros (h & Hi & Hh). apply filter_In in Hh as (Hh & Hu).
    apply String.eqb_eq in Hu. exists h; auto.
  - intros (h & Hh & Hu & Hi). exists h. split; [assumption|].
    apply filter_In. split; [assumption|]. now apply String.eqb_eq.
Qed.

Lemma read_ids_nil (db : Session) (user_id : string) :
  Forall (fun h => ReadingHistory.user_id h <> user_id) (reading_histories db) ->
  get_user_read_paper_ids db user_id = [].
Proof.
  intros Hall.
  destruct (get_user_read_paper_ids db user_id) as [|i l] eqn:E; [reflexivity|].
  assert (Hi : In i (get_user_read_paper_ids db user_id)) by (rewrite E; now left).
  apply read_ids_In in Hi as (h & Hh & Hu & _).
  rewrite Forall_forall in Hall. now apply Hall in Hh.
Qed.

Lemma py_slice_to_of_nat {A} (l : list A) (n : nat) :
  py_slice_to l (Z.of_nat n) = firstn n l.
Proof.
  unfold py_slice_to.
  destruct (0 <=? Z.of_nat n) eqn:E; [now rewrite Nat2Z.id|].
  apply Z.leb_gt in E. lia.
Qed.

Lemma query_papers_in_with_embedding_In (db : Session) (ids : list Z)
      (p : Paper.t) (e : vector) :
  In (p, e) (query_papers_in_with_embedding db ids) <->
  In p (papers db) /\ Paper.embedding p = Some e /\ In (Paper.id p) ids.
Proof.
  unfold query_papers_in_with_embedding. rewrite in_flat_map. split.
  - intros (r & Hr & Hin).
    destruct (Paper.embedding r) as [v|] eqn:Ev; [|contradiction].
    destruct (mem (Paper.id r) ids) eqn:Em; [|contradiction].
    destruct Hin as [Hin|[]]. injection Hin as -> ->.
    apply mem_true_iff in Em. auto.
  - intros (Hp & Ev & Hid). exists p. split; [assumption|].
    apply mem_true_iff in Hid. rewrite Ev, Hid. now left.
Qed.

(** C3 (as amended): [get_user_read_paper_ids] yields every paper id of the
    user's read events exactly once: the sequence has no duplicates and the
    same members as the sequence of read events; with a window [n],
    [recommend_by_reading_history] works on its first [n] elements. *)
Theorem get_user_read_paper_ids_distinct
        (db : Session) (user_id : string) :
  let read_paper_ids := get_user_read_paper_ids db user_id in
  NoDup read_paper_ids /\
  (forall i, In i read_paper_ids <->
             In i (read_events_most_recent_first db user_id)) /\
  (forall limit n,
     recommend_by_reading_history db user_id limit (Z.of_nat n) =
     match read_paper_ids with
     | [] => Returns []
     | _ :: _ =>
         match map snd (query_papers_in_with_embedding
                          db (firstn n read_paper_ids)) with
         | [] => Returns []
         | e :: embeddings =>
             avg_embedding <- np_mean_axis0 e embeddings ;;
             find_similar_papers db avg_embedding limit (Some read_paper_ids)
         end
     end).
Proof.
  cbv zeta. split; [apply NoDup_nodup|]. split.
  - intros i. unfold get_user_read_paper_ids, read_events_most_recent_first.
    rewrite nodup_In. split; apply Permutation_in, Permutation_map.
    + symmetry. apply order_by_perm.
    + apply order_by_perm.
  - intros limit n. unfold recommend_by_reading_history.
    now rewrite py_slice_to_of_nat.
Qed.

(** C6: for a user without any read event, [recommend_hybrid] returns what
    [recommend_by_paper] returns for the same paper and limit. *)
Theorem recommend_hybrid_without_history
        (db : Session) (paper_id : Z) (user_id : string) (limit : Z) :
  Forall (fun h => ReadingHistory.user_id h <> user_id) (reading_histories db) ->
  recommend_hybrid db paper_id user_id limit =
  recommend_by_paper db paper_id limit true.
Proof.
  intros Hnone. unfold recommend_hybrid, recommend_by_paper.
  rewrite (read_ids_nil _ _ Hnone).
  destruct (query_paper_first db paper_id) as [paper|]; [|reflexivity].
  destruct (Paper.embedding paper) as [e|]; reflexivity.
Qed.

Lemma query_paper_first_In (db : Session) (paper_id : Z) (p : Paper.t) :
  query_paper_first db paper_id = Some p ->
  In p (papers db) /\ Paper.id p = paper_id.
Proof.
  unfold query_paper_first. intros H. apply find_some in H as (Hin & E).
  apply Z.eqb_eq in E. auto.
Qed.

(** C9: when no paper with the given id carries a stored vector (the id is
    unknown, or its paper has none), [recommend_by_paper] and
    [recommend_hybrid] return the empty list; when the user has no read
    event, or no paper of the window carries a stored vector,
    [recommend_by_reading_history] returns the empty list. *)
Theorem recommenders_return_empty_without_vectors
        (db : Session) (paper_id : Z) (user_id reader : string)
        (limit history_limit : Z) (exclude_current : bool) :
  (forall p, In p (papers db) -> Paper.id p = paper_id ->
             Paper.embedding p = None) ->
  (Forall (fun h => ReadingHistory.user_id h <> reader) (reading_histories db) \/
   forall p, In p (papers db) ->
             In (Paper.id p)
                (py_slice_to (get_user_read_paper_ids db reader) history_limit) ->
             Paper.embedding p = None) ->
  recommend_by_paper db paper_id limit exclude_current = Returns [] /\
  recommend_hybrid db paper_id user_id limit = Returns [] /\
  recommend_by_reading_history db reader limit history_limit = Returns [].
Proof.
  intros Hpaper Hreader.
  assert (Hq : match query_paper_first db paper_id with
               | Some p => Paper.embedding p = None
               | None => True
               end).
  { destruct (query_paper_first db paper_id) as [p|] eqn:E; [|exact I].
    apply query_paper_first_In in E as (Hin & Hid). auto. }
  unfold recommend_by_paper, recommend_hybrid, recommend_by_reading_history.
  destruct (query_paper_first db paper_id) as [p|].
  - rewrite Hq. repeat split.
    destruct Hreader as [Hnone|Hwin]; [now rewrite (read_ids_nil _ _ Hnone)|].
    destruct (get_user_read_paper_ids db reader) as [|i ids] eqn:Eids;
      [reflexivity|].
    destruct (query_papers_in_with_embedding _ _) as [|[r e] rest] eqn:Eq;
      [reflexivity|].
    assert (Hin : In (r, e) (query_papers_in_with_embedding
                               db (py_slice_to (i :: ids) history_limit)))
      by (rewrite Eq; now left).
    apply query_papers_in_with_embedding_In in Hin as (Hr & He & Hid).
    rewrite (Hwin r Hr Hid) in He. discriminate.
  - repeat split.
    destruct Hreader as [Hnone|Hwin]; [now rewrite (read_ids_nil _ _ Hnone)|].
    destruct (get_user_read_paper_ids db reader) as [|i ids] eqn:Eids;
      [reflexivity|].
    destruct (query_papers_in_with_embedding _ _) as [|[r e] rest] eqn:Eq;
      [reflexivity|].
    assert (Hin : In (r, e) (query_papers_in_with_embedding
                               db (py_slice_to (i :: ids) history_limit)))
      by (rewrite Eq; now left).
    apply query_papers_in_with_embedding_In in Hin as (Hr & He & Hid).
    rewrite (Hwin r Hr Hid) in He. discriminate.
Qed.

(** *** Paper embeddings *)

Lemma substring_0_length (n : nat) (s : string) :
  (n <= String.length s)%nat -> String.length (substring 0 n s) = n.
Proof.
  revert s; induction n as [|n IH]; intros [|c s]; simpl; intros H;
    try reflexivity; try lia.
  f_equal. apply IH. lia.
Qed.

Lemma substring_0_idem (n : nat) (s : string) :
  substring 0 n (substring 0 n s) = substring 0 n s.
Proof.
  revert s; induction n as [|n IH]; intros [|c s]; simpl; try reflexivity.
  f_equal. apply IH.
Qed.

Lemma where_rows_truncated (paper_id : Z) (ids : list Z) (table : list Paper.t) :
  In paper_id ids ->
  where_rows (Some ids)
             (map (fun p => if Paper.id p =? paper_id then truncate_abstract p
                            else p) table) =
  where_rows (Some ids) table.
Proof.
  intros Hin. induction table as [|p t IH]; simpl; [reflexivity|].
  rewrite IH. f_equal.
  destruct (Paper.id p =? paper_id) eqn:E; [|reflexivity].
  apply Z.eqb_eq in E. apply mem_true_iff in Hin.
  simpl. rewrite E, Hin. now destruct (Paper.embedding p).
Qed.

Lemma query_paper_first_truncated (db : Session) (paper_id : Z) :
  query_paper_first (with_truncated_abstract db paper_id) paper_id =
  option_map truncate_abstract (query_paper_first db paper_id).
Proof.
  unfold query_paper_first, with_truncated_abstract. simpl.
  induction (papers db) as [|p t IH]; simpl; [reflexivity|].
  destruct (Paper.id p =? paper_id) eqn:E; simpl; rewrite E; [reflexivity|].
  exact IH.
Qed.

(** C8: a paper whose abstract has more than 500 characters is embedded as
    its title, one space, and the first 500 characters of the abstract, hence
    as the same paper with the abstract cut to exactly these 500 characters;
    and [recommend_by_paper] returns the same for a paper and for that paper
    with its abstract so cut. *)
Theorem generate_paper_embedding_truncates_abstract
        (paper : Paper.t) (a : string) :
  Paper.abstract paper = Some a ->
  (500 < String.length a)%nat ->
  generate_paper_embedding paper =
    encode (Paper.title paper ++ " " ++ substring 0 500 a)%string /\
  String.length (substring 0 500 a) = 500%nat /\
  Paper.abstract (truncate_abstract paper) = Some (substring 0 500 a) /\
  generate_paper_embedding (truncate_abstract paper) =
    generate_paper_embedding paper /\
  (forall db limit,
     recommend_by_paper (with_truncated_abstract db (Paper.id paper))
                        (Paper.id paper) limit true =
     recommend_by_paper db (Paper.id paper) limit true).
Proof.
  intros Ha Hlen.
  assert (Hcut : String.length (substring 0 500 a) = 500%nat)
    by (apply substring_0_length; lia).
  assert (Hgen : forall p b, Paper.abstract p = Some b ->
                             (0 < String.length b)%nat ->
                             generate_paper_embedding p =
                             encode (Paper.title p ++ " " ++ substring 0 500 b)%string).
  { intros p b Hb Hpos. unfold generate_paper_embedding, generate_embedding.
    rewrite Hb. destruct b as [|c b]; [simpl in Hpos; lia | reflexivity]. }
  assert (Htr : Paper.abstract (truncate_abstract paper) = Some (substring 0 500 a))
    by (simpl; now rewrite Ha).
  split; [apply Hgen; [assumption | lia]|].
  split; [assumption|]. split; [assumption|]. split.
  - rewrite (Hgen _ _ Htr) by lia.
    rewrite (Hgen _ _ Ha) by lia.
    now rewrite substring_0_idem.
  - intros db limit. unfold recommend_by_paper.
    rewrite query_paper_first_truncated.
    destruct (query_paper_first db (Paper.id paper)) as [p|]; [|reflexivity].
    simpl. destruct (Paper.embedding p) as [e|]; [|reflexivity].
    unfold find_similar_papers, execute_similarity_query. simpl.
    now rewrite where_rows_truncated by now left.
Qed.

(** *** Means and blends *)

Lemma zip_add_length (a b : vector) :
  List.length a = List.length b -> List.length (zip_add a b) = List.length a.
Proof.
  intros H. unfold zip_add. rewrite length_map, length_combine. lia.
Qed.

Lemma zip_add_nth (a b : vector) (i : nat) :
  List.length a = List.length b ->
  nth i (zip_add a b) 0%Q = (nth i a 0 + nth i b 0)%Q \/
  (List.length a <= i)%nat.
Proof.
  revert b i; induction a as [|x a IH]; intros [|y b] [|i]; simpl;
    intros H; try discriminate; try (right; lia); try (now left).
  destruct (IH b i) as [E|E]; [lia | now left | right; lia].
Qed.

Lemma np_sum_rows_spec (rs : list vector) (r : vector) :
  Forall (fun v => List.length v = List.length r) rs ->
  List.length (np_sum_rows r rs) = List.length r /\
  forall i, (i < List.length r)%nat ->
            (nth i (np_sum_rows r rs) 0 ==
             fold_right Qplus 0 (map (fun v => nth i v 0) (r :: rs)))%Q.
Proof.
  unfold np_sum_rows. revert r; induction rs as [|v rs IH]; intros r Hall.
  - simpl. split; [reflexivity|]. intros i _. ring.
  - inversion Hall as [|v' rs' Hv Hrs]; subst. simpl fold_left.
    fold (zip_add r v).
    assert (Hz : List.length (zip_add r v) = List.length r)
      by (apply zip_add_length; congruence).
    destruct (IH (zip_add r v)) as (Hlen & Hnth).
    { eapply Forall_impl; [|exact Hrs]. simpl. intros; congruence. }
    split; [congruence|].
    intros i Hi. rewrite Hnth by lia. simpl.
    destruct (zip_add_nth r v i) as [E|E]; [congruence | | lia].
    rewrite E. ring.
Qed.

(** On rows of one length [np_mean_axis0] returns their centroid. *)
Lemma np_mean_axis0_spec (r : vector) (rs : list vector) :
  Forall (fun v => List.length v = List.length r) rs ->
  exists c, np_mean_axis0 r rs = Returns c /\
            List.length c = List.length r /\
            forall i, (i < List.length r)%nat ->
                      (nth i c 0 == centroid_component (r :: rs) i)%Q.
Proof.
  intros Hall. unfold np_mean_axis0.
  assert (Hb : forallb (fun v => Nat.eqb (List.length v) (List.length r)) rs = true).
  { apply forallb_forall. rewrite Forall_forall in Hall.
    intros v Hv. apply Nat.eqb_eq. auto. }
  rewrite Hb. eexists. split; [reflexivity|].
  destruct (np_sum_rows_spec rs r Hall) as (Hlen & Hnth).
  split; [now rewrite length_map|].
  intros i Hi. unfold centroid_component.
  rewrite (nth_indep _ 0%Q (0 / inject_Z (Z.of_nat (List.length (r :: rs))))%Q)
    by (rewrite length_map; lia).
  rewrite (map_nth (fun s => (s / inject_Z (Z.of_nat (List.length (r :: rs))))%Q)).
  now rewrite Hnth.
Qed.

Lemma np_scale_nth (c : Q) (a : vector) (i : nat) :
  (nth i (np_scale c a) 0 == c * nth i a 0)%Q.
Proof.
  unfold np_scale. revert i; induction a as [|x a IH]; intros [|i]; simpl;
    try ring; try reflexivity. apply IH.
Qed.

Lemma np_add_spec (a b : vector) :
  List.length a = List.length b ->
  np_add a b = Returns (zip_add a b).
Proof.
  intros H. unfold np_add. apply Nat.eqb_eq in H. now rewrite H.
Qed.

Lemma query_papers_in_nil (db : Session) :
  query_papers_in_with_embedding db [] = [].
Proof.
  unfold query_papers_in_with_embedding.
  induction (papers db) as [|p t IH]; simpl; [reflexivity|].
  destruct (Paper.embedding p); simpl; exact IH.
Qed.

(** C5: when the paper has a stored vector [v] and the user's recent history
    (the papers with a stored vector among the first five read ids) is not
    empty, [recommend_hybrid] searches with the vector whose components are
    0.7 times those of [v] plus 0.3 times those of the centroid of the
    history vectors, the mean being over the vectors present. *)
Theorem recommend_hybrid_blends_paper_and_history
        (db : Session) (paper_id : Z) (user_id : string) (limit : Z)
        (paper : Paper.t) (v h : vector) (hs : list vector) :
  query_paper_first db paper_id = Some paper ->
  Paper.embedding paper = Some v ->
  map snd (query_papers_in_with_embedding
             db (py_slice_to (get_user_read_paper_ids db user_id) 5)) = h :: hs ->
  Forall (fun x => List.length x = List.length v) (h :: hs) ->
  exists hybrid,
    recommend_hybrid db paper_id user_id limit =
      find_similar_papers db hybrid limit
                          (Some (paper_id :: get_user_read_paper_ids db user_id)) /\
    List.length hybrid = List.length v /\
    forall i, (i < List.length v)%nat ->
              (nth i hybrid 0 ==
               (7 # 10) * nth i v 0 + (3 # 10) * centroid_component (h :: hs) i)%Q.
Proof.
  intros Hq Hv Hrecent Hdims.
  inversion Hdims as [|h' hs' Hh Hhs]; subst.
  destruct (np_mean_axis0_spec h hs) as (c & Hc & Hclen & Hcnth).
  { eapply Forall_impl; [|exact Hhs]. simpl. intros; congruence. }
  assert (Hlen : List.length (np_scale (7 # 10) v) =
                 List.length (np_scale (3 # 10) c))
    by (unfold np_scale; rewrite !length_map; congruence).
  exists (zip_add (np_scale (7 # 10) v) (np_scale (3 # 10) c)).
  split; [|split].
  - unfold recommend_hybrid. rewrite Hq, Hv.
    destruct (get_user_read_paper_ids db user_id) as [|i ids] eqn:Eids.
    + unfold py_slice_to in Hrecent. simpl in Hrecent.
      rewrite query_papers_in_nil in Hrecent. discriminate.
    + rewrite Hrecent. simpl bind at 2. rewrite Hc. simpl bind at 2.
      now rewrite (np_add_spec _ _ Hlen).
  - rewrite zip_add_length by assumption. unfold np_scale. now rewrite length_map.
  - intros i Hi.
    destruct (zip_add_nth (np_scale (7 # 10) v) (np_scale (3 # 10) c) i Hlen)
      as [E|E].
    + rewrite E, !np_scale_nth, Hcnth by lia. reflexivity.
    + unfold np_scale in E. rewrite length_map in E. lia.
Qed.

(** C7: with a non-empty set of contributors, namely the papers that carry a
    stored vector and whose id lies in the window of the read ids,
    [recommend_by_reading_history] searches with the centroid of exactly
    their vectors, and excludes every paper id of the user's read events,
    in or out of the window, with or without a vector. *)
Theorem recommend_by_reading_history_centroid_and_exclusion
        (db : Session) (user_id : string) (limit history_limit : Z)
        (e : vector) (es : list vector) :
  let read_paper_ids := get_user_read_paper_ids db user_id in
  let window := py_slice_to read_paper_ids history_limit in
  let contributors := query_papers_in_with_embedding db window in
  map snd contributors = e :: es ->
  Forall (fun x => List.length x = List.length e) es ->
  (forall p v, In (p, v) contributors <->
               In p (papers db) /\ Paper.embedding p = Some v /\
               In (Paper.id p) window) /\
  exists centroid,
    recommend_by_reading_history db user_id limit history_limit =
      find_similar_papers db centroid limit (Some read_paper_ids) /\
    List.length centroid = List.length e /\
    (forall i, (i < List.length e)%nat ->
               (nth i centroid 0 == centroid_component (e :: es) i)%Q) /\
    (forall res p s h,
       recommend_by_reading_history db user_id limit history_limit = Returns res ->
       In (p, s) res ->
       In h (reading_histories db) ->
       ReadingHistory.user_id h = user_id ->
       Paper.id p <> ReadingHistory.paper_id h).
Proof.
  cbv zeta. intros Hcontrib Hdims.
  split; [intros p v; apply query_papers_in_with_embedding_In|].
  destruct (np_mean_axis0_spec e es Hdims) as (c & Hc & Hclen & Hcnth).
  assert (Hrec : recommend_by_reading_history db user_id limit history_limit =
                 find_similar_papers db c limit
                                     (Some (get_user_read_paper_ids db user_id))).
  { unfold recommend_by_reading_history.
    destruct (get_user_read_paper_ids db user_id) as [|i ids] eqn:Eids.
    - unfold py_slice_to in Hcontrib.
      destruct (0 <=? history_limit); simpl in Hcontrib;
        rewrite firstn_nil, query_papers_in_nil in Hcontrib; discriminate.
    - rewrite Hcontrib, Hc. reflexivity. }
  exists c. repeat split; try assumption.
  intros res p s h Hres Hin Hh Hu Heq.
  rewrite Hrec in Hres.
  destruct (find_similar_papers_rows _ _ _ _ _ _ _ Hres Hin)
    as (row & v & _ & _ & Hx & -> & _).
  apply Hx. simpl. apply read_ids_In. exists h. auto.
Qed.

(** *** The vector literal *)



Lemma string_length_app (s1 s2 : string) :
  String.length (s1 ++ s2) = (String.length s1 + String.length s2)%nat.
Proof.
  induction s1 as [|c s1 IH]; simpl; [reflexivity | now rewrite IH].
Qed.











(** *** Dimensions *)





(** ** Further properties of the search *)




(** X2: the result has exactly [min(limit, n)] elements, [n] being the number
    of papers with a stored vector outside the exclusion list: every
    candidate is returned when there are no more than [limit] of them. *)
Theorem find_similar_papers_result_length
        (db : Session) (query_embedding : vector) (limit : Z)
        (exclude_ids : option (list Z)) (res : list (Paper.t * Q)) :
  find_similar_papers db query_embedding limit exclude_ids = Returns res ->
  Z.of_nat (List.length res) =
  Z.min limit (Z.of_nat (List.length (eligible db exclude_ids))).
Proof.
  intros H. destruct (find_similar_papers_length _ _ _ _ _ H) as (Hk & Hlen).
  lia.
Qed.

Lemma where_rows_ids_sub (clause : option (list Z)) (table : list Paper.t) (i : Z) :
  In i (map (fun r => Paper.id (fst r)) (where_rows clause table)) ->
  In i (map Paper.id table).
Proof.
  intros H. apply in_map_iff in H as ([p e] & <- & Hin).
  unfold where_rows in Hin. apply in_flat_map in Hin as (r & Hr & Hin).
  apply in_map_iff. exists r. split; [|assumption].
  destruct (Paper.embedding r) as [v|]; [|contradiction].
  destruct clause as [ids|].
  - destruct (mem (Paper.id r) ids); [contradiction|].
    destruct Hin as [Hin|[]]. now injection Hin as <- <-.
  - destruct Hin as [Hin|[]]. now injection Hin as <- <-.
Qed.

Lemma where_rows_ids_NoDup (clause : option (list Z)) (table : list Paper.t) :
  NoDup (map Paper.id table) ->
  NoDup (map (fun r => Paper.id (fst r)) (where_rows clause table)).
Proof.
  induction table as [|p t IH]; simpl; intros Hnd; [constructor|].
  inversion Hnd as [|i l Hni Hnd']; subst.
  rewrite map_app. specialize (IH Hnd').
  assert (Hstep : forall l0, (l0 = [] \/ exists e, l0 = [(p, e)]) ->
                  NoDup (map (fun r : Paper.t * vector => Paper.id (fst r)) l0
                         ++ map (fun r => Paper.id (fst r)) (where_rows clause t))).
  { intros l0 [->|(e & ->)]; simpl; [assumption|].
    constructor; [|assumption]. intros Hin. apply Hni.
    now apply where_rows_ids_sub in Hin. }
  apply Hstep.
  destruct (Paper.embedding p) as [v|]; [|now left].
  destruct clause as [ids|]; [destruct (mem (Paper.id p) ids)|]; eauto.
Qed.

Lemma NoDup_firstn {A} (n : nat) (l : list A) : NoDup l -> NoDup (firstn n l).
Proof.
  intros H. rewrite <- (firstn_skipn n l) in H. now apply NoDup_app_remove_r in H.
Qed.

(** X3: when the ids of the table are unique (the primary key), no paper id
    occurs twice in a result. *)
Theorem find_similar_papers_result_ids_unique
        (db : Session) (query_embedding : vector) (limit : Z)
        (exclude_ids : option (list Z)) (res : list (Paper.t * Q)) :
  NoDup (map Paper.id (papers db)) ->
  find_similar_papers db query_embedding limit exclude_ids = Returns res ->
  NoDup (map (fun r => Paper.id (fst r)) res).
Proof.
  unfold find_similar_papers. intros Hnd H.
  apply bind_returns in H as (rows & Hrows & H). injection H as <-.
  rewrite map_map. simpl.
  apply execute_similarity_query_returns in Hrows
    as [(_ & ->)|(_ & all & Hall & ->)]; [constructor|].
  rewrite <- firstn_map. apply NoDup_firstn.
  eapply Permutation_NoDup.
  { apply Permutation_map, Permutation_sym, order_by_perm. }
  assert (Hmap : map (fun r : Paper.t * Q => Paper.id (fst r)) all =
                 map (fun r => Paper.id (fst r))
                     (where_rows (exclude_clause exclude_ids) (papers db))).
  { clear Hnd. induction Hall as [|r r' l l' Hsel _ IH]; simpl; [reflexivity|].
    apply select_row_returns in Hsel as (-> & _). now rewrite IH. }
  rewrite Hmap. now apply where_rows_ids_NoDup.
Qed.

(** X4: with [exclude_current] set, [recommend_by_paper] never returns the
    paper it was asked about. *)
Theorem recommend_by_paper_excludes_itself
        (db : Session) (paper_id : Z) (limit : Z) (res : list (Paper.t * Q))
        (p : Paper.t) (s : Q) :
  recommend_by_paper db paper_id limit true = Returns res ->
  In (p, s) res ->
  Paper.id p <> paper_id.
Proof.
  unfold recommend_by_paper. intros H Hin.
  destruct (query_paper_first db paper_id) as [paper|];
    [|injection H as <-; contradiction].
  destruct (Paper.embedding paper) as [e|];
    [|injection H as <-; contradiction].
  destruct (find_similar_papers_rows _ _ _ _ _ _ _ H Hin)
    as (row & v & _ & _ & Hx & -> & _).
  simpl in *. intros E. apply Hx. left. now symmetry.
Qed.

(** X5: [recommend_hybrid] returns neither the paper it was asked about nor
    any paper of a read event of the user. *)
Theorem recommend_hybrid_excludes_paper_and_history
        (db : Session) (paper_id : Z) (user_id : string) (limit : Z)
        (res : list (Paper.t * Q)) (p : Paper.t) (s : Q) :
  recommend_hybrid db paper_id user_id limit = Returns res ->
  In (p, s) res ->
  Paper.id p <> paper_id /\
  forall h, In h (reading_histories db) ->
            ReadingHistory.user_id h = user_id ->
            Paper.id p <> ReadingHistory.paper_id h.
Proof.
  unfold recommend_hybrid. intros H Hin.
  destruct (query_paper_first db paper_id) as [paper|];
    [|injection H as <-; contradiction].
  destruct (Paper.embedding paper) as [e|];
    [|injection H as <-; contradiction].
  apply bind_returns in H as (hybrid & _ & H).
  destruct (find_similar_papers_rows _ _ _ _ _ _ _ H Hin)
    as (row & v & _ & _ & Hx & -> & _).
  simpl in *. split; [intros E; apply Hx; left; now symmetry|].
  intros h Hh Hu Heq. apply Hx. right.
  apply read_ids_In. exists h. auto.
Qed.

(** ** Within the schema no recommender fails *)





(** ** Writing a vector *)

Lemma find_by_id_map (f : Paper.t -> Paper.t) (i : Z) (l : list Paper.t) :
  (forall p, Paper.id (f p) = Paper.id p) ->
  find (fun p => Paper.id p =? i) (map f l) =
  option_map f (find (fun p => Paper.id p =? i) l).
Proof.
  intros Hid. induction l as [|p l IH]; simpl; [reflexivity|].
  rewrite Hid. destruct (Paper.id p =? i); [reflexivity | exact IH].
Qed.

Lemma get_paper_after_update (db : Session) (paper_id i : Z)
      (embedding : vector) (now : Z) :
  get_paper
    (mkSession (map (fun p => if Paper.id p =? paper_id
                              then set_embedding p embedding now else p)
                    (papers db))
               (reading_histories db)) i =
  option_map (fun p => if Paper.id p =? paper_id
                       then set_embedding p embedding now else p)
             (get_paper db i).
Proof.
  unfold get_paper. simpl. apply find_by_id_map.
  intros p. now destruct (Paper.id p =? paper_id).
Qed.

Lemma get_paper_id (db : Session) (i : Z) (p : Paper.t) :
  get_paper db i = Some p -> In p (papers db) /\ Paper.id p = i.
Proof.
  unfold get_paper. intros H. apply find_some in H as (Hin & E).
  apply Z.eqb_eq in E. auto.
Qed.

Lemma update_paper_embedding_stores_vector_aux
      (db : Session) (paper : Paper.t) (now : Z) :
  get_paper db (Paper.id paper) = Some paper ->
  List.length (generate_paper_embedding paper) = embedding_column_dimension ->
  exists db',
    update_paper_embedding db (Paper.id paper)
                           (generate_paper_embedding paper) now =
      inr (db', Some (set_embedding paper (generate_paper_embedding paper) now)) /\
    get_paper db' (Paper.id paper) =
      Some (set_embedding paper (generate_paper_embedding paper) now).
Proof.
  intros Hget Hlen. unfold update_paper_embedding.
  rewrite Hget. apply Nat.eqb_eq in Hlen. rewrite Hlen.
  assert (Hfound : get_paper
            (mkSession (map (fun p => if Paper.id p =? Paper.id paper
                                      then set_embedding p (generate_paper_embedding paper) now
                                      else p)
                            (papers db))
                       (reading_histories db)) (Paper.id paper) =
          Some (set_embedding paper (generate_paper_embedding paper) now)).
  { rewrite get_paper_after_update, Hget. simpl.
    rewrite Z.eqb_refl. reflexivity. }
  eexists. split; [rewrite Hfound; reflexivity | exact Hfound].
Qed.

(** X7: for a paper of the table and a vector of the column's dimension,
    [update_paper_embedding] succeeds and returns the paper with the new
    vector, its title, authors and abstract as before; the paper is then
    found with that vector, every other paper is found as before, and the
    reading histories are untouched. *)
Theorem update_paper_embedding_stores_vector
        (db : Session) (paper_id : Z) (embedding : vector) (now : Z)
        (paper : Paper.t) :
  get_paper db paper_id = Some paper ->
  List.length embedding = embedding_column_dimension ->
  exists db' stored,
    update_paper_embedding db paper_id embedding now = inr (db', Some stored) /\
    get_paper db' paper_id = Some stored /\
    Paper.embedding stored = Some embedding /\
    Paper.id stored = paper_id /\
    Paper.title stored = Paper.title paper /\
    Paper.authors stored = Paper.authors paper /\
    Paper.abstract stored = Paper.abstract paper /\
    (forall i, i <> paper_id -> get_paper db' i = get_paper db i) /\
    reading_histories db' = reading_histories db.
Proof.
  intros Hget Hlen. unfold update_paper_embedding.
  rewrite Hget. apply Nat.eqb_eq in Hlen. rewrite Hlen.
  destruct (get_paper_id _ _ _ Hget) as (_ & Hid).
  assert (Hfound : get_paper
            (mkSession (map (fun p => if Paper.id p =? paper_id
                                      then set_embedding p embedding now else p)
                            (papers db))
                       (reading_histories db)) paper_id =
          Some (set_embedding paper embedding now)).
  { rewrite get_paper_after_update, Hget. simpl.
    rewrite Hid, Z.eqb_refl. reflexivity. }
  eexists. exists (set_embedding paper embedding now).
  split; [rewrite Hfound; reflexivity|].
  split; [exact Hfound|]. do 5 (split; [first [reflexivity | exact Hid]|]).
  split; [|reflexivity].
  intros i Hi. rewrite get_paper_after_update.
  destruct (get_paper db i) as [p|] eqn:Ep; [|reflexivity].
  destruct (get_paper_id _ _ _ Ep) as (_ & Hpi). simpl.
  rewrite Hpi. apply Z.eqb_neq in Hi. now rewrite Hi.
Qed.


(** X9: generating the vector of a vector-less paper and storing it, as the
    pages do before asking for similar papers, makes [recommend_by_paper]
    search with that vector, the paper itself excluded; given that the model
    yields vectors of the column's dimension. *)
Theorem recommend_by_paper_after_generating_embedding
        (db : Session) (paper : Paper.t) (now limit : Z) :
  get_paper db (Paper.id paper) = Some paper ->
  List.length (generate_paper_embedding paper) = embedding_column_dimension ->
  exists db' stored,
    update_paper_embedding db (Paper.id paper)
                           (generate_paper_embedding paper) now =
      inr (db', Some stored) /\
    recommend_by_paper db' (Paper.id paper) limit true =
      find_similar_papers db' (generate_paper_embedding paper) limit
                          (Some [Paper.id paper]).
Proof.
  intros Hget Hlen.
  destruct (update_paper_embedding_stores_vector_aux db paper now Hget Hlen)
    as (db' & Hupd & Hfound).
  exists db', (set_embedding paper (generate_paper_embedding paper) now).
  split; [exact Hupd|].
  unfold recommend_by_paper, query_paper_first.
  unfold get_paper in Hfound. rewrite Hfound. reflexivity.
Qed.

(** ** Deleting a paper *)

Lemma get_paper_none (db : Session) (i : Z) :
  get_paper db i = None <-> ~ In i (map Paper.id (papers db)).
Proof.
  unfold get_paper. split.
  - intros Hnone Hin. apply in_map_iff in Hin as (p & <- & Hp).
    pose proof (find_none _ _ Hnone p Hp) as E. simpl in E.
    rewrite Z.eqb_refl in E. discriminate.
  - intros Hnot. destruct (find _ _) as [p|] eqn:E; [|reflexivity].
    apply find_some in E as (Hp & Hid). apply Z.eqb_eq in Hid.
    exfalso. apply Hnot. apply in_map_iff. eauto.
Qed.

(** X10: [delete_paper] answers whether the paper existed, and leaves the
    database as it was if it did not. Afterwards no paper has the id and,
    reading histories referring to papers of the table, no user has read it;
    every other paper is found as before; stored vectors keep the column's
    dimension and every reading history still refers to a paper. *)
Theorem delete_paper_removes_paper_and_history
        (db : Session) (paper_id : Z) :
  let db' := fst (delete_paper db paper_id) in
  (snd (delete_paper db paper_id) = true <-> get_paper db paper_id <> None) /\
  (snd (delete_paper db paper_id) = false -> db' = db) /\
  get_paper db' paper_id = None /\
  (references_ok db ->
   forall user_id, ~ In paper_id (get_user_read_paper_ids db' user_id)) /\
  (forall i, i <> paper_id -> get_paper db' i = get_paper db i) /\
  (schema_ok db -> schema_ok db') /\
  (references_ok db -> references_ok db').
Proof.
  cbv zeta. unfold delete_paper.
  destruct (get_paper db paper_id) as [paper|] eqn:Hget; simpl.
  - split; [split; [discriminate | reflexivity]|].
    split; [discriminate|]. split.
    { apply get_paper_none. simpl. intros Hin.
      apply in_map_iff in Hin as (p & Hid & Hp).
      apply filter_In in Hp as (_ & Hf). rewrite Hid, Z.eqb_refl in Hf.
      discriminate. }
    split.
    { intros _ user_id Hin. apply read_ids_In in Hin as (h & Hh & _ & Hid).
      simpl in Hh. apply filter_In in Hh as (_ & Hf).
      rewrite Hid, Z.eqb_refl in Hf. discriminate. }
    split.
    { intros i Hi. unfold get_paper. simpl.
      clear Hget. induction (papers db) as [|p t IH]; simpl; [reflexivity|].
      destruct (Paper.id p =? paper_id) eqn:E; simpl.
      - apply Z.eqb_eq in E. rewrite IH.
        destruct (Paper.id p =? i) eqn:E'; [|reflexivity].
        apply Z.eqb_eq in E'. congruence.
      - destruct (Paper.id p =? i); [reflexivity | exact IH]. }
    split.
    { intros Hok p e Hp He. simpl in Hp. apply filter_In in Hp as (Hp & _).
      exact (Hok p e Hp He). }
    intros Hok h Hh. simpl in Hh. apply filter_In in Hh as (Hh & Hf).
    destruct (Hok h Hh) as (p & Hp & Hid). exists p. split; [|assumption].
    simpl. apply filter_In. split; [assumption|]. now rewrite Hid.
  - split; [split; [discriminate | congruence]|].
    split; [reflexivity|]. split; [assumption|]. split.
    { intros Hok user_id Hin. apply read_ids_In in Hin as (h & Hh & _ & Hid).
      destruct (Hok h Hh) as (p & Hp & Hpid).
      apply get_paper_none in Hget. apply Hget.
      apply in_map_iff. exists p. split; [congruence | assumption]. }
    repeat split; auto.
Qed.

Lemma delete_paper_get_none (db : Session) (paper_id : Z) :
  get_paper (fst (delete_paper db paper_id)) paper_id = None.
Proof.
  unfold delete_paper.
  destruct (get_paper db paper_id) as [paper|] eqn:Hget; simpl; [|assumption].
  apply get_paper_none. simpl. intros Hin.
  apply in_map_iff in Hin as (p & Hid & Hp).
  apply filter_In in Hp as (_ & Hf). rewrite Hid, Z.eqb_refl in Hf.
  discriminate.
Qed.

(** X11: once [delete_paper] has run, [recommend_by_paper] and
    [recommend_hybrid] for the deleted id return the empty list, and no
    search, whatever its query, limit and exclusions, returns a paper with
    that id. *)
Theorem deleted_paper_is_never_recommended (db : Session) (paper_id : Z) :
  let db' := fst (delete_paper db paper_id) in
  (forall limit exclude_current,
     recommend_by_paper db' paper_id limit exclude_current = Returns []) /\
  (forall user_id limit,
     recommend_hybrid db' paper_id user_id limit = Returns []) /\
  (forall query_embedding limit exclude_ids res p s,
     find_similar_papers db' query_embedding limit exclude_ids = Returns res ->
     In (p, s) res -> Paper.id p <> paper_id).
Proof.
  cbv zeta. pose proof (delete_paper_get_none db paper_id) as Hnone.
  split; [|split].
  - intros limit ec. unfold recommend_by_paper, query_paper_first.
    unfold get_paper in Hnone. now rewrite Hnone.
  - intros user_id limit. unfold recommend_hybrid, query_paper_first.
    unfold get_paper in Hnone. now rewrite Hnone.
  - intros q limit excl res p s Hres Hin Hid.
    destruct (find_similar_papers_rows _ _ _ _ _ _ _ Hres Hin)
      as (row & v & Hrow & _ & _ & -> & _).
    apply get_paper_none in Hnone. apply Hnone.
    apply in_map_iff. exists row. auto.
Qed.

(** ** Marking a paper as read *)

Lemma read_ids_after_append (db : Session) (h : ReadingHistory.t)
      (user_id : string) (i : Z) :
  In i (get_user_read_paper_ids
          (mkSession (papers db) (reading_histories db ++ [h])) user_id) <->
  In i (get_user_read_paper_ids db user_id) \/
  (ReadingHistory.user_id h = user_id /\ ReadingHistory.paper_id h = i).
Proof.
  rewrite !read_ids_In. simpl. split.
  - intros (h' & Hin & Hu & Hi). apply in_app_or in Hin as [Hin|[<-|[]]].
    + left. exists h'. auto.
    + right. auto.
  - intros [(h' & Hin & Hu & Hi)|(Hu & Hi)].
    + exists h'. split; [apply in_or_app; now left | auto].
    + exists h. split; [apply in_or_app; right; now left | auto].
Qed.


(** X13: [create_reading_history] refuses a history of a paper that is not
    in the table and writes nothing; whenever it succeeds, every reading
    history still refers to a paper and the stored vectors are untouched. *)
Theorem create_reading_history_keeps_references
        (db : Session) (history : ReadingHistoryCreate.t) (new_id now : Z) :
  (~ In (ReadingHistoryCreate.paper_id history) (map Paper.id (papers db)) ->
   create_reading_history db history new_id now = inl ForeignKeyViolation) /\
  (forall db' row,
     create_reading_history db history new_id now = inr (db', row) ->
     (references_ok db -> references_ok db') /\
     (schema_ok db -> schema_ok db')).
Proof.
  unfold create_reading_history.
  destruct (existsb _ (papers db)) eqn:Hex.
  - apply existsb_exists in Hex as (p & Hp & Hid). apply Z.eqb_eq in Hid.
    split.
    + intros Hnot. exfalso. apply Hnot. apply in_map_iff. eauto.
    + intros db' row H. injection H as <- <-. split; [|auto].
      intros Hok h Hh. simpl in Hh. apply in_app_or in Hh as [Hh|[<-|[]]].
      * exact (Hok h Hh).
      * exists p. auto.
  - split; [reflexivity | discriminate].
Qed.

(** X14: a paper that has just been marked as read by a user is returned to
    that user neither by [recommend_by_reading_history] nor by
    [recommend_hybrid]. *)
Theorem paper_marked_read_is_not_recommended
        (db db' : Session) (history : ReadingHistoryCreate.t) (new_id now : Z)
        (row : ReadingHistory.t) :
  create_reading_history db history new_id now = inr (db', row) ->
  let user_id := ReadingHistoryCreate.user_id history in
  (forall limit history_limit res p s,
     recommend_by_reading_history db' user_id limit history_limit = Returns res ->
     In (p, s) res -> Paper.id p <> ReadingHistoryCreate.paper_id history) /\
  (forall paper_id limit res p s,
     recommend_hybrid db' paper_id user_id limit = Returns res ->
     In (p, s) res -> Paper.id p <> ReadingHistoryCreate.paper_id history).
Proof.
  intros Hcreate. cbv zeta.
  assert (Hread : In (ReadingHistoryCreate.paper_id history)
                     (get_user_read_paper_ids
                        db' (ReadingHistoryCreate.user_id history))).
  { unfold create_reading_history in Hcreate.
    destruct (existsb _ (papers db)); [|discriminate].
    injection Hcreate as <- _. apply read_ids_after_append. right. auto. }
  split.
  - intros limit hl res p s Hres Hin Hid.
    unfold recommend_by_reading_history in Hres.
    destruct (get_user_read_paper_ids db' _) as [|i ids] eqn:Eids;
      [contradiction|].
    destruct (map snd _) as [|e es]; [injection Hres as <-; contradiction|].
    apply bind_returns in Hres as (avg & _ & Hres).
    destruct (find_similar_papers_rows _ _ _ _ _ _ _ Hres Hin)
      as (r & v & _ & _ & Hx & -> & _).
    apply Hx. simpl in Hid. rewrite Hid. exact Hread.
  - intros paper_id limit res p s Hres Hin Hid.
    unfold recommend_hybrid in Hres.
    destruct (query_paper_first db' paper_id) as [paper|];
      [|injection Hres as <-; contradiction].
    destruct (Paper.embedding paper) as [e|];
      [|injection Hres as <-; contradiction].
    apply bind_returns in Hres as (hybrid & _ & Hres).
    destruct (find_similar_papers_rows _ _ _ _ _ _ _ Hres Hin)
      as (r & v & _ & _ & Hx & -> & _).
    apply Hx. simpl in Hid. rewrite Hid. right. exact Hread.
Qed.

(** ** Listing the reading history *)

Lemma skipn_sorted {A} (R : A -> A -> Prop) (n : nat) (l : list A) :
  StronglySorted R l -> StronglySorted R (skipn n l).
Proof.
  intros Hs; revert n; induction Hs as [|x l Hs IH Hx]; intros [|n]; simpl;
    try constructor; auto.
Qed.

Lemma skipn_In {A} (n : nat) (l : list A) (x : A) :
  In x (skipn n l) -> In x l.
Proof.
  revert l; induction n as [|n IH]; intros [|y l]; simpl; auto.
Qed.



(** X15: a page of [get_reading_histories] holds reading histories of the
    asked user only, the most recently read first, and at most [limit] of
    them. *)
Theorem get_reading_histories_recent_first
        (db : Session) (user_id : string) (skip limit : Z)
        (rows : list ReadingHistory.t) :
  get_reading_histories db user_id skip limit = inr rows ->
  (forall h, In h rows ->
             In h (reading_histories db) /\ ReadingHistory.user_id h = user_id) /\
  StronglySorted (fun a b => ReadingHistory.read_at b <= ReadingHistory.read_at a)
                 rows /\
  Z.of_nat (List.length rows) <= limit.
Proof.
  unfold get_reading_histories.
  destruct (skip <? 0); [discriminate|].
  destruct (limit <? 0) eqn:Hl; [discriminate|]. apply Z.ltb_ge in Hl.
  intros H; injection H as <-. split; [|split].
  - intros h Hh. apply firstn_In, skipn_In in Hh.
    apply (Permutation_in _ (order_by_perm _ _)) in Hh.
    apply filter_In in Hh as (Hh & Hu). apply String.eqb_eq in Hu. auto.
  - apply firstn_sorted, skipn_sorted.
    match goal with
    | |- StronglySorted _ (order_by ?k ?l) =>
        pose proof (order_by_sorted k l) as Hs
    end.
    induction Hs as [|x l _ IH Hx]; constructor; [assumption|].
    eapply Forall_impl; [|exact Hx]. simpl. intros b Hb.
    rewrite <- Zle_Qle in Hb. lia.
  - rewrite length_firstn. lia.
Qed.


(** ** Texts *)

Lemma substring_0_all (n : nat) (s : string) :
  (String.length s <= n)%nat -> substring 0 n s = s.
Proof.
  revert s; induction n as [|n IH]; intros [|c s]; simpl; intros H;
    try reflexivity; try lia.
  f_equal. apply IH. lia.
Qed.

(** X17: a paper without abstract, or with the empty abstract, is embedded
    as its title alone; a paper with a non-empty abstract of at most 500
    characters as its title, one space, and the whole abstract. *)
Theorem generate_paper_embedding_short_abstract (paper : Paper.t) :
  (Paper.abstract paper = None \/ Paper.abstract paper = Some ""%string ->
   generate_paper_embedding paper = encode (Paper.title paper)) /\
  (forall a, Paper.abstract paper = Some a -> a <> ""%string ->
             (String.length a <= 500)%nat ->
             generate_paper_embedding paper =
             encode (Paper.title paper ++ " " ++ a)%string).
Proof.
  split.
  - unfold generate_paper_embedding, generate_embedding.
    intros [->| ->]; reflexivity.
  - intros a Ha Hne Hlen. destruct a as [|c a]; [congruence|].
    assert (E : generate_paper_embedding paper =
                encode (Paper.title paper ++ " "
                        ++ substring 0 500 (String c a))%string).
    { unfold generate_paper_embedding, generate_embedding. now rewrite Ha. }
    now rewrite E, substring_0_all by assumption.
Qed.

(** X18: the text embedded when a paper is imported is the text
    [generate_paper_embedding] builds for the paper, whenever the abstract is
    not empty: the vector stored at import is the one a later generation
    would give. For the empty abstract the import text has a trailing space
    that [generate_paper_embedding] does not add. *)
Theorem import_text_agrees_with_generate_paper_embedding
        (paper : Paper.t) (a : string) :
  Paper.abstract paper = Some a ->
  (a <> ""%string ->
   generate_embedding (import_paper_text (Paper.title paper) a) =
   generate_paper_embedding paper) /\
  (a = ""%string ->
   import_paper_text (Paper.title paper) a = (Paper.title paper ++ " ")%string /\
   generate_paper_embedding paper = generate_embedding (Paper.title paper)).
Proof.
  intros Ha. unfold generate_paper_embedding, import_paper_text. rewrite Ha.
  split.
  - intros Hne. destruct a as [|c a]; [congruence | reflexivity].
  - intros ->. split; reflexivity.
Qed.

Lemma str_slice_to_length (s : string) (stop : Z) :
  0 <= stop <= Z.of_nat (String.length s) ->
  Z.of_nat (String.length (str_slice_to s stop)) = stop.
Proof.
  intros H. unfold str_slice_to.
  assert (E : (0 <=? stop) = true) by (apply Z.leb_le; lia).
  rewrite E, substring_0_length by lia. lia.
Qed.

(** X19: when the suffix is no longer than [max_length], the text
    [truncate_text] returns is never longer than [max_length]: a text within
    the bound is returned as it is, and a longer one is cut to exactly
    [max_length] characters, the last of which are the suffix. *)
Theorem truncate_text_fits
        (text : string) (max_length : Z) (suffix : string) :
  Z.of_nat (String.length suffix) <= max_length ->
  Z.of_nat (String.length (truncate_text text max_length suffix)) <= max_length /\
  (Z.of_nat (String.length text) <= max_length ->
   truncate_text text max_length suffix = text) /\
  (max_length < Z.of_nat (String.length text) ->
   Z.of_nat (String.length (truncate_text text max_length suffix)) = max_length /\
   exists kept,
     truncate_text text max_length suffix = (kept ++ suffix)%string /\
     prefix kept text = true).
Proof.
  intros Hsuf. unfold truncate_text.
  destruct (Z.of_nat (String.length text) <=? max_length) eqn:Hle.
  - rewrite orb_true_r. apply Z.leb_le in Hle.
    split; [assumption|]. split; [reflexivity | lia].
  - apply Z.leb_gt in Hle.
    assert (Hne : String.eqb text "" = false).
    { destruct text; [simpl in Hle; lia | reflexivity]. }
    rewrite Hne. simpl orb.
    assert (Hlen : Z.of_nat (String.length
                     (str_slice_to text (max_length - Z.of_nat (String.length suffix))
                      ++ suffix)) = max_length).
    { rewrite string_length_app, Nat2Z.inj_add, str_slice_to_length by lia. lia. }
    split; [lia|]. split; [lia|]. intros _. split; [exact Hlen|].
    eexists. split; [reflexivity|].
    unfold str_slice_to.
    assert (E : (0 <=? max_length - Z.of_nat (String.length suffix)) = true)
      by (apply Z.leb_le; lia).
    rewrite E. apply prefix_correct.
    rewrite substring_0_length by lia. reflexivity.
Qed.

(** X20: with more authors than [max_display] (at least one displayed),
    [format_authors] shows the first [max_display] of them and nothing of the
    others: two lists that agree on their first [max_display] authors and are
    both longer are formatted alike. *)
Theorem format_authors_ignores_the_rest
        (authors authors' : list string) (max_display : Z) :
  0 <= max_display ->
  max_display < Z.of_nat (List.length authors) ->
  max_display < Z.of_nat (List.length authors') ->
  firstn (Z.to_nat max_display) authors = firstn (Z.to_nat max_display) authors' ->
  format_authors authors max_display = format_authors authors' max_display /\
  format_authors authors max_display =
    (join ", " (firstn (Z.to_nat max_display) authors) ++ ", et al.")%string.
Proof.
  intros H0 Hl Hl' Hfirst.
  assert (Hfmt : forall l, max_display < Z.of_nat (List.length l) ->
                 format_authors l max_display =
                 (join ", " (firstn (Z.to_nat max_display) l) ++ ", et al.")%string).
  { intros l Hlen. unfold format_authors.
    destruct l as [|x l]; [simpl in Hlen; lia|].
    assert (E : (Z.of_nat (List.length (x :: l)) <=? max_display) = false)
      by (apply Z.leb_gt; lia).
    rewrite E. unfold py_slice_to.
    assert (E' : (0 <=? max_display) = true) by (apply Z.leb_le; lia).
    now rewrite E'. }
  split; [|now apply Hfmt].
  rewrite (Hfmt authors Hl), (Hfmt authors' Hl'), Hfirst. reflexivity.
Qed.

(** ** Categories *)

Lemma insert_string_perm (x : string) (l : list string) :
  Permutation (insert_string x l) (x :: l).
Proof.
  induction l as [|y l IH]; simpl; [reflexivity|].
  destruct (String.leb x y); [reflexivity|].
  rewrite IH. apply perm_swap.
Qed.

Lemma sorted_strings_perm (l : list string) : Permutation (sorted_strings l) l.
Proof.
  induction l as [|x l IH]; simpl; [reflexivity|].
  rewrite insert_string_perm. now constructor.
Qed.

Lemma insert_string_sorted (x : string) (l : list string) :
  Sorted (fun a b => String.leb a b = true) l ->
  Sorted (fun a b => String.leb a b = true) (insert_string x l).
Proof.
  induction 1 as [|y l Hs IH Hy]; simpl; [repeat constructor|].
  destruct (String.leb x y) eqn:E.
  - constructor; [constructor; assumption | constructor; assumption].
  - assert (Hyx : String.leb y x = true)
      by (destruct (String.leb_total x y); congruence).
    constructor; [assumption|].
    destruct l as [|z l]; simpl; [constructor; assumption|].
    destruct (String.leb x z); constructor; try assumption.
    now inversion Hy.
Qed.

(** X23: [get_categories] lists the categories in ascending order, each
    once, and they are exactly the non-empty categories carried by some
    paper. *)
Theorem get_categories_sorted_distinct (db : Session) :
  Sorted (fun a b => String.leb a b = true) (get_categories db) /\
  NoDup (get_categories db) /\
  (forall c, In c (get_categories db) <->
             c <> ""%string /\
             exists p, In p (papers db) /\ Paper.category p = Some c).
Proof.
  unfold get_categories. split; [|split].
  - match goal with |- Sorted _ (sorted_strings ?l0) => generalize l0 end.
    intros l. induction l as [|x l IH]; simpl;
      [constructor | now apply insert_string_sorted].
  - eapply Permutation_NoDup; [symmetry; apply sorted_strings_perm|].
    apply NoDup_filter, NoDup_nodup.
  - intros c. split.
    + intros Hin. apply (Permutation_in _ (sorted_strings_perm _)) in Hin.
      apply filter_In in Hin as (Hin & Hne). apply nodup_In in Hin.
      apply in_flat_map in Hin as (p & Hp & Hc).
      split.
      * intros ->. discriminate.
      * exists p. split; [assumption|].
        destruct (Paper.category p) as [c'|]; [|contradiction].
        destruct Hc as [->|[]]. reflexivity.
    + intros (Hne & p & Hp & Hc).
      apply (Permutation_in _ (Permutation_sym (sorted_strings_perm _))).
      apply filter_In. split.
      * apply nodup_In, in_flat_map. exists p. split; [assumption|].
        rewrite Hc. now left.
      * destruct (String.eqb c "") eqn:E; [|reflexivity].
        apply String.eqb_eq in E. contradiction.
Qed.

(** ** The lazily loaded model *)


(** ** Precision of the vector literal *)




(** ** Deleting a read event *)

(** X24: [delete_reading_history] answers whether the row existed and
    removes the rows with that id only: the papers are untouched, a user's
    read ids are afterwards the papers of the user's remaining read events
    (a paper read more than once stays read), and every reading history still
    refers to a paper. *)
Theorem delete_reading_history_removes_one_event
        (db : Session) (history_id : Z) :
  let db' := fst (delete_reading_history db history_id) in
  (snd (delete_reading_history db history_id) = true <->
   get_reading_history db history_id <> None) /\
  papers db' = papers db /\
  get_reading_history db' history_id = None /\
  (forall user_id i,
     In i (get_user_read_paper_ids db' user_id) <->
     exists h, In h (reading_histories db) /\
               ReadingHistory.id h <> history_id /\
               ReadingHistory.user_id h = user_id /\
               ReadingHistory.paper_id h = i) /\
  (references_ok db -> references_ok db').
Proof.
  cbv zeta. unfold delete_reading_history.
  destruct (get_reading_history db history_id) as [row|] eqn:Hget; simpl.
  - split; [split; [discriminate | reflexivity]|]. split; [reflexivity|].
    split.
    { unfold get_reading_history. simpl.
      destruct (find _ (filter _ _)) as [h|] eqn:E; [|reflexivity].
      apply find_some in E as (Hin & Hid). apply filter_In in Hin as (_ & Hf).
      rewrite Hid in Hf. discriminate. }
    split.
    { intros user_id i. rewrite read_ids_In. simpl. split.
      - intros (h & Hin & Hu & Hi). apply filter_In in Hin as (Hin & Hf).
        exists h. repeat split; auto. intros E. rewrite E, Z.eqb_refl in Hf.
        discriminate.
      - intros (h & Hin & Hid & Hu & Hi). exists h. repeat split; auto.
        apply filter_In. split; [assumption|].
        apply Z.eqb_neq in Hid. now rewrite Hid. }
    intros Hok h Hh. simpl in Hh. apply filter_In in Hh as (Hh & _).
    exact (Hok h Hh).
  - split; [split; [discriminate | congruence]|]. split; [reflexivity|].
    split; [assumption|]. split; [|auto].
    intros user_id i. rewrite read_ids_In. split.
    + intros (h & Hin & Hu & Hi). exists h. repeat split; auto.
      intros E. unfold get_reading_history in Hget.
      pose proof (find_none _ _ Hget h Hin) as Hf. simpl in Hf.
      rewrite E, Z.eqb_refl in Hf. discriminate.
    + intros (h & Hin & _ & Hu & Hi). exists h. auto.
Qed.

End Recommender.

(** ** The definitions at work on the sample data *)

(** C3, counterexample: user [u] has four read events, two of them of paper
    1; [get_user_read_paper_ids] yields three ids, not one per read event. *)
Lemma get_user_read_paper_ids_not_one_per_read_event :
  read_events_most_recent_first sample_db "u" = [4; 1; 3; 1] /\
  List.length (get_user_read_paper_ids sample_db "u") = 3%nat /\
  get_user_read_paper_ids sample_db "u" <>
  read_events_most_recent_first sample_db "u".
Proof.
  split; [reflexivity|]. split; [reflexivity|]. vm_compute. discriminate.
Qed.


(** C1 at work: with papers 1 and 2 excluded the search still returns three
    papers, none of them excluded. *)
Lemma find_similar_papers_never_returns_excluded_witness :
  exists res,
    find_similar_papers unit_cosine_distance sample_db [1; 0]%Q 3 (Some [1; 2]) =
    Returns res /\
    map (fun r => Paper.id (fst r)) res = [5; 4] /\
    (forall p s, In (p, s) res -> ~ In (Paper.id p) [1; 2]).
Proof.
  eexists. split; [reflexivity|]. split; [reflexivity|].
  apply (find_similar_papers_never_returns_excluded
           unit_cosine_distance sample_db [1; 0]%Q 3 (Some [1; 2])).
  reflexivity.
Defined.


(** C5 at work: paper 2 blended with the history of user [u], whose recent
    papers with a vector are papers 1 and 4. *)
Lemma recommend_hybrid_blends_paper_and_history_witness :
  exists hybrid,
    recommend_hybrid unit_cosine_distance sample_db 2 "u" 10 =
      find_similar_papers unit_cosine_distance sample_db hybrid 10
                          (Some [2; 3; 1; 4]) /\
    List.length hybrid = 2%nat /\
    forall i, (i < 2)%nat ->
              (nth i hybrid 0 ==
               (7 # 10) * nth i [3 # 5; 4 # 5] 0
               + (3 # 10) * centroid_component [[1; 0]; [0; 1]] i)%Q.
Proof.
  apply (recommend_hybrid_blends_paper_and_history
           unit_cosine_distance sample_db 2 "u" 10
           (sample_paper 2 None (Some [3 # 5; 4 # 5]%Q))
           [3 # 5; 4 # 5]%Q [1; 0]%Q [[0; 1]%Q]).
  - reflexivity.
  - reflexivity.
  - reflexivity.
  - repeat constructor.
Defined.

(** C6 at work: user [w] has read nothing. *)
Lemma recommend_hybrid_without_history_witness :
  recommend_hybrid unit_cosine_distance sample_db 2 "w" 10 =
  recommend_by_paper unit_cosine_distance sample_db 2 10 true.
Proof.
  apply (recommend_hybrid_without_history unit_cosine_distance sample_db 2 "w" 10).
  repeat constructor; discriminate.
Defined.

(** C7 at work: user [u] read papers 1, 3 and 4, of which 3 has no vector;
    the centroid is that of the vectors of 1 and 4, and no result is one of
    the three. *)
Lemma recommend_by_reading_history_centroid_and_exclusion_witness :
  get_user_read_paper_ids sample_db "u" = [3; 1; 4] /\
  exists centroid,
    recommend_by_reading_history unit_cosine_distance sample_db "u" 10 10 =
      find_similar_papers unit_cosine_distance sample_db centroid 10
                          (Some [3; 1; 4]) /\
    (nth 0 centroid 0 == 1 # 2)%Q /\ (nth 1 centroid 0 == 1 # 2)%Q /\
    forall res p s,
      recommend_by_reading_history unit_cosine_distance sample_db "u" 10 10 =
        Returns res ->
      In (p, s) res -> ~ In (Paper.id p) [3; 1; 4].
Proof.
  split; [reflexivity|].
  destruct (recommend_by_reading_history_centroid_and_exclusion
              unit_cosine_distance sample_db "u" 10 10 [1; 0]%Q [[0; 1]%Q]
              eq_refl)
    as (_ & c & Hrec & _ & Hnth & Hex).
  { repeat constructor. }
  exists c. split; [exact Hrec|].
  split; [rewrite (Hnth 0%nat) by (simpl; lia); reflexivity|].
  split; [rewrite (Hnth 1%nat) by (simpl; lia); reflexivity|].
  intros res p s Hres Hin [E|[E|[E|[]]]].
  - exact (Hex res p s (sample_read 2 3 "u" 11) Hres Hin
               (or_intror (or_introl eq_refl)) eq_refl (eq_sym E)).
  - exact (Hex res p s (sample_read 1 1 "u" 10) Hres Hin
               (or_introl eq_refl) eq_refl (eq_sym E)).
  - exact (Hex res p s (sample_read 4 4 "u" 13) Hres Hin
               (or_intror (or_intror (or_intror (or_introl eq_refl))))
               eq_refl (eq_sym E)).
Defined.

(** C8 at work: an abstract of 600 characters. *)
Lemma generate_paper_embedding_truncates_abstract_witness :
  String.length long_abstract = 600%nat /\
  generate_paper_embedding sample_encode
    (truncate_abstract (sample_paper 1 (Some long_abstract) None)) =
  generate_paper_embedding sample_encode
    (sample_paper 1 (Some long_abstract) None).
Proof.
  split; [reflexivity|].
  apply (generate_paper_embedding_truncates_abstract
           sample_encode unit_cosine_distance
           (sample_paper 1 (Some long_abstract) None) long_abstract).
  - reflexivity.
  - vm_compute. lia.
Defined.

(** C9 at work: paper 3 has no vector, paper 9 does not exist, user [w] has
    read nothing. *)
Lemma recommenders_return_empty_without_vectors_witness :
  recommend_by_paper unit_cosine_distance sample_db 3 10 true = Returns [] /\
  recommend_hybrid unit_cosine_distance sample_db 3 "u" 10 = Returns [] /\
  recommend_by_reading_history unit_cosine_distance sample_db "w" 10 10 =
  Returns [].
Proof.
  apply (recommenders_return_empty_without_vectors
           unit_cosine_distance sample_db 3 "u" "w" 10 10 true).
  - intros p Hin Hid. simpl in Hin.
    repeat (destruct Hin as [<-|Hin]; [try discriminate Hid; reflexivity|]).
    contradiction.
  - left. repeat constructor; discriminate.
Defined.


(** ** Further runs on the sample data *)



(** X2 at work: two candidates are left, ten are asked for. *)
Lemma find_similar_papers_result_length_witness :
  exists res,
    find_similar_papers unit_cosine_distance sample_db [1; 0]%Q 10
                        (Some [1; 2]) = Returns res /\
    Z.of_nat (List.length res) = 2.
Proof.
  eexists. split; [reflexivity|].
  apply (find_similar_papers_result_length
           unit_cosine_distance sample_db [1; 0]%Q 10 (Some [1; 2])).
  reflexivity.
Defined.

(** X3 at work. *)
Lemma find_similar_papers_result_ids_unique_witness :
  exists res,
    find_similar_papers unit_cosine_distance sample_db [1; 0]%Q 10 None =
    Returns res /\
    NoDup (map (fun r => Paper.id (fst r)) res).
Proof.
  eexists. split; [reflexivity|].
  apply (find_similar_papers_result_ids_unique
           unit_cosine_distance sample_db [1; 0]%Q 10 None).
  - simpl. repeat constructor; simpl; intuition discriminate.
  - reflexivity.
Defined.

(** X4 at work: paper 5 has the vector of paper 1 and is returned for it;
    paper 1 is not. *)
Lemma recommend_by_paper_excludes_itself_witness :
  exists res,
    recommend_by_paper unit_cosine_distance sample_db 1 2 true = Returns res /\
    map (fun r => Paper.id (fst r)) res = [5; 2] /\
    forall p s, In (p, s) res -> Paper.id p <> 1.
Proof.
  eexists. split; [reflexivity|]. split; [reflexivity|].
  intros p s.
  apply (recommend_by_paper_excludes_itself unit_cosine_distance sample_db 1 2).
  reflexivity.
Defined.

(** X5 at work: user [u] has read papers 1, 3 and 4. *)
Lemma recommend_hybrid_excludes_paper_and_history_witness :
  exists res,
    recommend_hybrid unit_cosine_distance sample_db 2 "u" 10 = Returns res /\
    map (fun r => Paper.id (fst r)) res = [5] /\
    forall p s, In (p, s) res -> Paper.id p <> 2.
Proof.
  eexists. split; [reflexivity|]. split; [reflexivity|].
  intros p s Hin.
  apply (recommend_hybrid_excludes_paper_and_history
           unit_cosine_distance sample_db 2 "u" 10 _ p s eq_refl Hin).
Defined.


(** X7 at work: paper 3 of the schema database gets a vector. *)
Lemma update_paper_embedding_stores_vector_witness :
  exists db' stored,
    update_paper_embedding schema_db 3 (basis 2) 99 = inr (db', Some stored) /\
    get_paper db' 3 = Some stored /\
    Paper.embedding stored = Some (basis 2).
Proof.
  destruct (update_paper_embedding_stores_vector
              schema_db 3 (basis 2) 99
              (sample_paper 3 (Some long_abstract) None) eq_refl eq_refl)
    as (db' & stored & Hupd & Hget & Hemb & _).
  exists db', stored. auto.
Defined.


(** X9 at work: the vector of paper 3 is generated, stored, and searched
    with. *)
Lemma recommend_by_paper_after_generating_embedding_witness :
  exists db' stored,
    update_paper_embedding
      schema_db 3
      (generate_paper_embedding sample_encode_384
         (sample_paper 3 (Some long_abstract) None)) 99 =
      inr (db', Some stored) /\
    recommend_by_paper unit_cosine_distance db' 3 5 true =
    find_similar_papers unit_cosine_distance db'
      (generate_paper_embedding sample_encode_384
         (sample_paper 3 (Some long_abstract) None)) 5 (Some [3]).
Proof.
  apply (recommend_by_paper_after_generating_embedding
           sample_encode_384 unit_cosine_distance schema_db
           (sample_paper 3 (Some long_abstract) None) 99 5).
  - reflexivity.
  - reflexivity.
Defined.

(** X10 at work: paper 1, read twice by user [u], is deleted. *)
Lemma delete_paper_removes_paper_and_history_witness :
  snd (delete_paper sample_db 1) = true /\
  get_paper (fst (delete_paper sample_db 1)) 1 = None /\
  get_user_read_paper_ids (fst (delete_paper sample_db 1)) "u" = [3; 4] /\
  get_paper (fst (delete_paper sample_db 1)) 2 = get_paper sample_db 2.
Proof.
  destruct (delete_paper_removes_paper_and_history sample_db 1)
    as (Hdel & _ & Hnone & _ & Hother & _).
  split; [apply Hdel; discriminate|]. split; [exact Hnone|].
  split; [reflexivity|]. apply Hother. discriminate.
Defined.

(** X11 at work. *)
Lemma deleted_paper_is_never_recommended_witness :
  recommend_by_paper unit_cosine_distance (fst (delete_paper sample_db 1))
                     1 10 true = Returns [] /\
  exists res,
    find_similar_papers unit_cosine_distance (fst (delete_paper sample_db 1))
                        [1; 0]%Q 10 None = Returns res /\
    map (fun r => Paper.id (fst r)) res = [5; 2; 4] /\
    forall p s, In (p, s) res -> Paper.id p <> 1.
Proof.
  destruct (deleted_paper_is_never_recommended unit_cosine_distance sample_db 1)
    as (Hby & _ & Hsearch).
  split; [apply Hby|].
  eexists. split; [reflexivity|]. split; [reflexivity|].
  intros p s. apply (Hsearch [1; 0]%Q 10 None). reflexivity.
Defined.


(** X13 at work: there is no paper 9. *)
Lemma create_reading_history_keeps_references_witness :
  create_reading_history sample_db
    (ReadingHistoryCreate.mk 9 "v" None None) 6 20 = inl ForeignKeyViolation.
Proof.
  apply (create_reading_history_keeps_references
           sample_db (ReadingHistoryCreate.mk 9 "v" None None) 6 20).
  simpl. intuition discriminate.
Defined.

(** X14 at work: user [v] marks paper 5 as read and asks for
    recommendations. *)
Lemma paper_marked_read_is_not_recommended_witness :
  exists db' row res,
    create_reading_history sample_db
      (ReadingHistoryCreate.mk 5 "v" None None) 6 20 = inr (db', row) /\
    recommend_by_reading_history unit_cosine_distance db' "v" 10 10 =
      Returns res /\
    map (fun r => Paper.id (fst r)) res = [1; 4] /\
    forall p s, In (p, s) res -> Paper.id p <> 5.
Proof.
  eexists. eexists. eexists. split; [reflexivity|]. split; [reflexivity|].
  split; [reflexivity|]. intros p s.
  destruct (paper_marked_read_is_not_recommended
              unit_cosine_distance sample_db _
              (ReadingHistoryCreate.mk 5 "v" None None) 6 20 _ eq_refl)
    as (Hhist & _).
  apply (Hhist 10 10). reflexivity.
Defined.

(** X15 at work: the two latest read events of user [u]. *)
Lemma get_reading_histories_recent_first_witness :
  exists rows,
    get_reading_histories sample_db "u" 0 2 = inr rows /\
    map ReadingHistory.paper_id rows = [4; 1] /\
    StronglySorted
      (fun a b => ReadingHistory.read_at b <= ReadingHistory.read_at a) rows.
Proof.
  eexists. split; [reflexivity|]. split; [reflexivity|].
  apply (get_reading_histories_recent_first sample_db "u" 0 2). reflexivity.
Defined.


(** X17 at work. *)
Lemma generate_paper_embedding_short_abstract_witness :
  generate_paper_embedding sample_encode
    (sample_paper 1 (Some EmptyString) None) = sample_encode "t" /\
  generate_paper_embedding sample_encode
    (sample_paper 1 (Some "abc"%string) None) = sample_encode "t abc".
Proof.
  destruct (generate_paper_embedding_short_abstract
              sample_encode (sample_paper 1 (Some EmptyString) None)) as (H1 & _).
  destruct (generate_paper_embedding_short_abstract
              sample_encode (sample_paper 1 (Some "abc"%string) None)) as (_ & H2).
  split.
  - apply H1. now right.
  - apply (H2 "abc"%string); [reflexivity | discriminate | simpl; lia].
Defined.

(** X18 at work. *)
Lemma import_text_agrees_with_generate_paper_embedding_witness :
  generate_embedding sample_encode (import_paper_text "t" long_abstract) =
  generate_paper_embedding sample_encode
    (sample_paper 1 (Some long_abstract) None).
Proof.
  destruct (import_text_agrees_with_generate_paper_embedding
              sample_encode (sample_paper 1 (Some long_abstract) None)
              long_abstract eq_refl) as (H & _).
  apply H. discriminate.
Defined.

(** X19 at work: 600 characters cut to 150. *)
Lemma truncate_text_fits_witness :
  Z.of_nat (String.length (truncate_text long_abstract 150 "...")) <= 150.
Proof.
  apply (truncate_text_fits long_abstract 150 "..."). simpl. lia.
Defined.

(** X20 at work. *)
Lemma format_authors_ignores_the_rest_witness :
  format_authors ["A"; "B"; "C"; "D"]%string 3 =
  format_authors ["A"; "B"; "C"; "E"; "F"]%string 3 /\
  format_authors ["A"; "B"; "C"; "D"]%string 3 = "A, B, C, et al."%string.
Proof.
  apply (format_authors_ignores_the_rest
           ["A"; "B"; "C"; "D"]%string ["A"; "B"; "C"; "E"; "F"]%string 3);
    first [reflexivity | simpl; lia].
Defined.



(** X24 at work: user [u] read paper 1 twice; with the first of the two
    events deleted the paper is still among the read ones. *)
Lemma delete_reading_history_removes_one_event_witness :
  snd (delete_reading_history sample_db 1) = true /\
  In 1 (get_user_read_paper_ids (fst (delete_reading_history sample_db 1)) "u").
Proof.
  destruct (delete_reading_history_removes_one_event sample_db 1)
    as (Hdel & _ & _ & Hids & _).
  split; [apply Hdel; discriminate|].
  apply Hids. exists (sample_read 3 1 "u" 12).
  split; [simpl; auto|]. split; [discriminate|]. split; reflexivity.
Defined.
